(** * notion-tidy: a shallow embedding of [app/dead-ends.py]

    The script scans a Notion workspace for untitled pages, classifies each
    one as empty or content-bearing, and either offers to delete it or
    proposes a title obtained from a local language-model endpoint.

    The program handles decoded JSON throughout, so the embedding starts with
    a model of the Python values the [json] decoder produces and of the few
    operations the script applies to them (subscription, [dict.get], [in],
    truthiness, [str.strip], [str.lower], ...), each with the exceptions it
    raises.  The functions of the script are then transcribed one by one under
    their own names. *)

From Stdlib Require Import String Ascii List ZArith Bool Arith Lia.
From Stdlib Require QArith.
From Stdlib Require Import DecimalString.
Import ListNotations.

Local Open Scope list_scope.
Local Open Scope string_scope.
Local Open Scope nat_scope.

(** ** Exceptions and fallible computations *)

(** The exception classes the modelled operations raise.  Every handler of
    the script is [except Exception], so the class never selects a handler;
    it is kept to make evaluations readable.  [OtherError] stands for what
    the collaborators (the Notion client, [requests]) raise of their own. *)
Inductive exn : Type :=
| KeyError
| TypeError
| AttributeError
| IndexError
| ConnectionError
| JSONDecodeError
| EOFError
| OtherError (name : string).

Inductive result (A : Type) : Type :=
| Ok (a : A)
| Raise (e : exn).

Arguments Ok {A} a.
Arguments Raise {A} e.

Definition bind {A B : Type} (c : result A) (k : A -> result B) : result B :=
  match c with
  | Ok a => k a
  | Raise e => Raise e
  end.

Notation "x <- c ;; k" := (bind c (fun x => k))
  (at level 61, c at next level, right associativity).

(** ** Strings

    A Python [str] is a sequence of code points.  It is modelled by [string],
    holding the UTF-8 encoding of the text, so that the literals of the script
    (which contain an em dash) are the literals of the model. *)
Module Str.

Definition byte (n : nat) : ascii := ascii_of_nat n.

Fixpoint bytes (l : list nat) : string :=
  match l with
  | [] => EmptyString
  | n :: l' => String (byte n) (bytes l')
  end.

(** The line feed and the double quote of the script's literals. *)
Definition nl : string := bytes [10].

Definition quote : string := bytes [34].

(** A continuation byte of a UTF-8 sequence: [10xxxxxx]. *)
Definition is_continuation (c : ascii) : bool :=
  (128 <=? nat_of_ascii c) && (nat_of_ascii c <? 192).

Definition starts_with_continuation (s : string) : bool :=
  match s with
  | EmptyString => false
  | String c _ => is_continuation c
  end.

(** The characters of a [str], each as a [str] of length one: a lead byte
    with the continuation bytes that follow it. *)
Fixpoint chars (s : string) : list string :=
  match s with
  | EmptyString => []
  | String c r =>
      match chars r with
      | x :: xs =>
          if starts_with_continuation x then String c x :: xs
          else String c EmptyString :: x :: xs
      | [] => [String c EmptyString]
      end
  end.

(** [s[:n]]: the first [n] characters. *)
Fixpoint take_chars (n : nat) (s : string) : string :=
  match s with
  | EmptyString => EmptyString
  | String c r =>
      if is_continuation c then String c (take_chars n r)
      else match n with
           | O => EmptyString
           | S n' => String c (take_chars n' r)
           end
  end.

(** The code points for which Python's [str.isspace] holds, in UTF-8:
    U+0009..U+000D, U+001C..U+0020, U+0085, U+00A0, U+1680, U+2000..U+200A,
    U+2028, U+2029, U+202F, U+205F and U+3000. *)
Definition whitespace : list string :=
  map bytes
    [ [9]; [10]; [11]; [12]; [13]; [28]; [29]; [30]; [31]; [32];
      [194; 133]; [194; 160];
      [225; 154; 128];
      [226; 128; 128]; [226; 128; 129]; [226; 128; 130]; [226; 128; 131];
      [226; 128; 132]; [226; 128; 133]; [226; 128; 134]; [226; 128; 135];
      [226; 128; 136]; [226; 128; 137]; [226; 128; 138];
      [226; 128; 168]; [226; 128; 169]; [226; 128; 175];
      [226; 129; 159];
      [227; 128; 128] ].

Definition is_space (t : string) : bool := existsb (String.eqb t) whitespace.

Fixpoint lstrip (s : string) : string :=
  match s with
  | EmptyString => EmptyString
  | String c1 r1 =>
      if is_space (String c1 EmptyString) then lstrip r1
      else
        match r1 with
        | EmptyString => s
        | String c2 r2 =>
            if is_space (String c1 (String c2 EmptyString)) then lstrip r2
            else
              match r2 with
              | EmptyString => s
              | String c3 r3 =>
                  if is_space (String c1 (String c2 (String c3 EmptyString)))
                  then lstrip r3
                  else s
              end
        end
  end.

(** From the right: what is left of the tail, with the current byte in
    front, is dropped when it is exactly one whitespace character. *)
Fixpoint rstrip (s : string) : string :=
  match s with
  | EmptyString => EmptyString
  | String c r =>
      let t := String c (rstrip r) in
      if is_space t then EmptyString else t
  end.

(** [s.strip()] *)
Definition strip (s : string) : string := rstrip (lstrip s).

(** [s.lower()] on the ASCII letters.  Python also lowers letters outside
    ASCII; the script only compares lowered strings with the ASCII literals
    [""], ["untitled"], ["[untitled]"] and ["yes"], and no character outside
    ASCII is lowered to an ASCII letter of these, so the comparisons are
    unaffected. *)
Definition lower_ascii (c : ascii) : ascii :=
  let n := nat_of_ascii c in
  if (65 <=? n) && (n <=? 90) then ascii_of_nat (n + 32) else c.

Fixpoint lower (s : string) : string :=
  match s with
  | EmptyString => EmptyString
  | String c r => String (lower_ascii c) (lower r)
  end.

(** [s.replace(old, new)] for a one-byte [old]. *)
Fixpoint replace (old : ascii) (new : string) (s : string) : string :=
  match s with
  | EmptyString => EmptyString
  | String c r =>
      if Ascii.eqb c old then new ++ replace old new r
      else String c (replace old new r)
  end.

(** [sep.join(l)] on strings. *)
Fixpoint join (sep : string) (l : list string) : string :=
  match l with
  | [] => EmptyString
  | [x] => x
  | x :: l' => x ++ sep ++ join sep l'
  end.

(** [needle in hay] on strings. *)
Fixpoint is_infix (needle hay : string) : bool :=
  String.prefix needle hay
  || match hay with
     | EmptyString => false
     | String _ r => is_infix needle r
     end.

(** [str(n)] for a non-negative integer. *)
Definition of_nat (n : nat) : string := NilZero.string_of_uint (Nat.to_uint n).

End Str.

(** ** Python values

    What [json] decoding yields: [None], booleans, numbers, strings, lists,
    and dictionaries with string keys.  A dictionary keeps its insertion
    order, which [dict.values()] exposes, so it is an association list. *)
#[warnings="-register-all"]
Inductive pyval : Type :=
| VNone
| VBool (b : bool)
| VInt (z : Z)
| VFloat (q : QArith_base.Q)
| VStr (s : string)
| VList (l : list pyval)
| VDict (d : list (string * pyval)).

Module Py.

(** [bool(v)] *)
Definition truthy (v : pyval) : bool :=
  match v with
  | VNone => false
  | VBool b => b
  | VInt z => negb (Z.eqb z 0)
  | VFloat q => negb (Z.eqb (QArith_base.Qnum q) 0)
  | VStr s => negb (String.eqb s "")
  | VList l => match l with [] => false | _ :: _ => true end
  | VDict d => match d with [] => false | _ :: _ => true end
  end.

(** [v == s] for a string literal [s]. *)
Definition eq_str (v : pyval) (s : string) : bool :=
  match v with
  | VStr t => String.eqb t s
  | _ => false
  end.

(** [v in [s1, ..., sn]] for string literals. *)
Definition in_strs (v : pyval) (l : list string) : bool := existsb (eq_str v) l.

Fixpoint lookup (d : list (string * pyval)) (k : string) : option pyval :=
  match d with
  | [] => None
  | (k', v) :: d' => if String.eqb k' k then Some v else lookup d' k
  end.

(** Lists and dictionaries cannot be hashed, so they raise as keys. *)
Definition hashable (k : pyval) : bool :=
  match k with
  | VList _ | VDict _ => false
  | _ => true
  end.

(** Indexing a sequence of length [length l] by the integer [i], negative
    indices counting from the end. *)
Definition index {A : Type} (l : list A) (i : Z) : result A :=
  let n := Z.of_nat (length l) in
  let j := if (i <? 0)%Z then (i + n)%Z else i in
  if ((0 <=? j)%Z && (j <? n)%Z)%bool then
    match nth_error l (Z.to_nat j) with
    | Some a => Ok a
    | None => Raise IndexError
    end
  else Raise IndexError.

(** An index, when the key is an integer ([bool] is a subclass of [int]). *)
Definition as_index (k : pyval) : option Z :=
  match k with
  | VInt i => Some i
  | VBool b => Some (if b then 1%Z else 0%Z)
  | _ => None
  end.

(** [v[k]] *)
Definition getitem (v k : pyval) : result pyval :=
  match v with
  | VDict d =>
      if hashable k then
        match k with
        | VStr s => match lookup d s with
                    | Some x => Ok x
                    | None => Raise KeyError
                    end
        | _ => Raise KeyError
        end
      else Raise TypeError
  | VList l =>
      match as_index k with
      | Some i => index l i
      | None => Raise TypeError
      end
  | VStr s =>
      match as_index k with
      | Some i => c <- index (Str.chars s) i ;; Ok (VStr c)
      | None => Raise TypeError
      end
  | _ => Raise TypeError
  end.

(** [v.get(k, dflt)]: only dictionaries have the method. *)
Definition get (v k dflt : pyval) : result pyval :=
  match v with
  | VDict d =>
      if hashable k then
        match k with
        | VStr s => match lookup d s with
                    | Some x => Ok x
                    | None => Ok dflt
                    end
        | _ => Ok dflt
        end
      else Raise TypeError
  | _ => Raise AttributeError
  end.

(** [s in v] for a string literal [s]: a key of a dictionary, an element of
    a list, a substring of a string. *)
Definition contains_str (s : string) (v : pyval) : result bool :=
  match v with
  | VDict d => Ok (match lookup d s with Some _ => true | None => false end)
  | VList l => Ok (existsb (fun x => eq_str x s) l)
  | VStr t => Ok (Str.is_infix s t)
  | _ => Raise TypeError
  end.

(** The items a [for] loop over [v] visits. *)
Definition iter (v : pyval) : result (list pyval) :=
  match v with
  | VList l => Ok l
  | VDict d => Ok (map (fun kv => VStr (fst kv)) d)
  | VStr s => Ok (map VStr (Str.chars s))
  | _ => Raise TypeError
  end.

(** [v.values()] *)
Definition values (v : pyval) : result (list pyval) :=
  match v with
  | VDict d => Ok (map snd d)
  | _ => Raise AttributeError
  end.

(** [v.lower()], [v.strip()], [v.replace(old, new)]: methods of [str]. *)
Definition lower (v : pyval) : result string :=
  match v with
  | VStr s => Ok (Str.lower s)
  | _ => Raise AttributeError
  end.

Definition strip (v : pyval) : result string :=
  match v with
  | VStr s => Ok (Str.strip s)
  | _ => Raise AttributeError
  end.

Definition replace (old : ascii) (new : string) (v : pyval) : result string :=
  match v with
  | VStr s => Ok (Str.replace old new s)
  | _ => Raise AttributeError
  end.

(** [v[:n]] *)
Definition slice_to (n : nat) (v : pyval) : result pyval :=
  match v with
  | VStr s => Ok (VStr (Str.take_chars n s))
  | VList l => Ok (VList (firstn n l))
  | _ => Raise TypeError
  end.

(** [sep.join(l)]: every item must be a [str]. *)
Fixpoint strings (l : list pyval) : result (list string) :=
  match l with
  | [] => Ok []
  | VStr s :: l' => ss <- strings l' ;; Ok (s :: ss)
  | _ :: _ => Raise TypeError
  end.

Definition join (sep : string) (l : list pyval) : result string :=
  ss <- strings l ;; Ok (Str.join sep ss).

End Py.

(** ** Title resolution *)

(** The loop of [extract_title] over [properties.values()]: [Ok (Some v)]
    when a [return v] is reached, [Ok None] when the loop runs out. *)
Fixpoint scan_properties (props : list pyval) : result (option pyval) :=
  match props with
  | [] => Ok None
  | prop :: rest =>
      ty <- Py.get prop (VStr "type") VNone ;;
      if Py.eq_str ty "title" then
        title_list <- Py.get prop (VStr "title") (VList []) ;;
        if Py.truthy title_list then
          first <- Py.getitem title_list (VInt 0) ;;
          text <- Py.getitem first (VStr "text") ;;
          content <- Py.getitem text (VStr "content") ;;
          Ok (Some content)
        else Ok (Some (VStr ""))
      else scan_properties rest
  end.

(** The body of the [try] block. *)
Definition extract_title_try (page : pyval) : result (option pyval) :=
  properties <- Py.get page (VStr "properties") (VDict []) ;;
  props <- Py.values properties ;;
  scan_properties props.

Definition extract_title (page : pyval) : result pyval :=
  match extract_title_try page with
  | Ok (Some title) => Ok title
  | Ok None => Ok (VStr "[Untitled]")
  | Raise _ => Ok (VStr "[Untitled]")
  end.

Definition is_untitled (page : pyval) : result bool :=
  title <- extract_title page ;;
  lowered <- Py.lower title ;;
  Ok (Py.in_strs (VStr lowered) [""; "untitled"; "[untitled]"]).

(** ** The remote service

    The Notion client, reduced to the four calls of the script.  Reads are
    functions of their arguments; any call may raise. *)
Record Client : Type := {
  (** [notion.search(query=..., filter=..., start_cursor=...)] *)
  search : pyval -> pyval -> pyval -> result pyval;
  (** [notion.blocks.children.list(page_id)] *)
  blocks_children_list : pyval -> result pyval;
  (** [notion.blocks.delete(page_id)] *)
  blocks_delete : pyval -> result pyval;
  (** [notion.pages.update(page_id=..., properties=...)] *)
  pages_update : pyval -> pyval -> result pyval
}.

(** ** The stream of untitled pages *)

(** How a run of the generator ends: its loop is left by [break], an
    exception escapes, or the model's fuel is spent. *)
Inductive gen_end : Type :=
| GenDone
| GenRaise (e : exn)
| GenFuel.

(** [for page in response["results"]: if is_untitled(page): yield page] *)
Fixpoint yield_untitled (pages : list pyval) : list pyval * option exn :=
  match pages with
  | [] => ([], None)
  | page :: rest =>
      match is_untitled page with
      | Raise e => ([], Some e)
      | Ok b =>
          let (ys, r) := yield_untitled rest in
          (if b then page :: ys else ys, r)
      end
  end.

Definition page_filter : pyval :=
  VDict [("property", VStr "object"); ("value", VStr "page")].

(** The [while True] loop, one search per unit of fuel, from [cursor]. *)
Fixpoint stream_from (notion : Client) (fuel : nat) (cursor : pyval)
  : list pyval * gen_end :=
  match fuel with
  | O => ([], GenFuel)
  | S fuel' =>
      match search notion (VStr "") page_filter cursor with
      | Raise e => ([], GenRaise e)
      | Ok response =>
          match (results <- Py.getitem response (VStr "results") ;;
                 Py.iter results) with
          | Raise e => ([], GenRaise e)
          | Ok pages =>
              match yield_untitled pages with
              | (ys, Some e) => (ys, GenRaise e)
              | (ys, None) =>
                  match Py.get response (VStr "next_cursor") VNone with
                  | Raise e => (ys, GenRaise e)
                  | Ok cursor' =>
                      if negb (Py.truthy cursor') then (ys, GenDone)
                      else
                        let (ys', fin) := stream_from notion fuel' cursor' in
                        ((ys ++ ys')%list, fin)
                  end
              end
          end
      end
  end.

Definition stream_untitled_pages (notion : Client) (fuel : nat)
  : list pyval * gen_end :=
  stream_from notion fuel VNone.

(** ** Content text extraction *)

(** [for t in rich_text: if t["type"] == "text": text_content.append(...)] *)
Fixpoint collect_spans (rich_text : list pyval) (text_content : list pyval)
  : result (list pyval) :=
  match rich_text with
  | [] => Ok text_content
  | t :: rest =>
      ty <- Py.getitem t (VStr "type") ;;
      if Py.eq_str ty "text" then
        text <- Py.getitem t (VStr "text") ;;
        content <- Py.getitem text (VStr "content") ;;
        collect_spans rest (text_content ++ [content])%list
      else collect_spans rest text_content
  end.

Definition text_block_types : list string :=
  ["paragraph"; "heading_1"; "heading_2"; "heading_3"].

Fixpoint collect_blocks (blocks : list pyval) (text_content : list pyval)
  : result (list pyval) :=
  match blocks with
  | [] => Ok text_content
  | block :: rest =>
      block_type <- Py.getitem block (VStr "type") ;;
      if Py.in_strs block_type text_block_types then
        block_data <- Py.getitem block block_type ;;
        rich_text <- Py.get block_data (VStr "rich_text") (VList []) ;;
        spans <- Py.iter rich_text ;;
        text_content' <- collect_spans spans text_content ;;
        collect_blocks rest text_content'
      else collect_blocks rest text_content
  end.

(** The first page of a page's block children:
    [notion.blocks.children.list(page_id)["results"]], as the list a [for]
    loop visits. *)
Definition fetch_blocks (notion : Client) (page_id : pyval)
  : result (list pyval) :=
  response <- blocks_children_list notion page_id ;;
  blocks <- Py.getitem response (VStr "results") ;;
  Py.iter blocks.

Definition get_page_content_text (notion : Client) (page_id : pyval)
  : result string :=
  blocks <- fetch_blocks notion page_id ;;
  text_content <- collect_blocks blocks [] ;;
  joined <- Py.join " " text_content ;;
  Ok (Str.strip joined).

(** ** Emptiness check *)

(** The scan of a [rich_text] list in the first branch: [Ok (Some false)]
    when its [return False] is reached, [Ok None] when the loop runs out. *)
Fixpoint scan_rich_text (spans : list pyval) : result (option bool) :=
  match spans with
  | [] => Ok None
  | rt :: rest =>
      ty <- Py.get rt (VStr "type") VNone ;;
      if Py.eq_str ty "text" then
        text <- Py.getitem rt (VStr "text") ;;
        c <- Py.getitem text (VStr "content") ;;
        content <- Py.strip c ;;
        if Py.truthy (VStr content) then Ok (Some false)
        else scan_rich_text rest
      else scan_rich_text rest
  end.

(** The scan as the second branch writes it, with one [and] condition. *)
Fixpoint scan_rich_text_dup (spans : list pyval) : result (option bool) :=
  match spans with
  | [] => Ok None
  | rt :: rest =>
      ty <- Py.get rt (VStr "type") VNone ;;
      cond <- (if Py.eq_str ty "text" then
                 text <- Py.getitem rt (VStr "text") ;;
                 c <- Py.getitem text (VStr "content") ;;
                 content <- Py.strip c ;;
                 Ok (Py.truthy (VStr content))
               else Ok false) ;;
      if cond then Ok (Some false) else scan_rich_text_dup rest
  end.

Definition duplicated_types : list string :=
  ["to_do"; "callout"; "toggle"; "quote"; "code"].

Definition always_visible_types : list string :=
  ["image"; "video"; "file"; "embed"; "equation";
   "pdf"; "bookmark"; "table"; "table_row"; "synced_block"; "link_to_page"].

(** The [for block in blocks] loop of [is_empty], with its four-way
    [if]/[elif] chain. *)
Fixpoint is_empty_blocks (blocks : list pyval) : result bool :=
  match blocks with
  | [] => Ok true
  | block :: rest =>
      block_type <- Py.get block (VStr "type") VNone ;;
      block_data <- Py.get block block_type (VDict []) ;;
      has_rich_text <- Py.contains_str "rich_text" block_data ;;
      if has_rich_text then
        rich_text <- Py.getitem block_data (VStr "rich_text") ;;
        spans <- Py.iter rich_text ;;
        found <- scan_rich_text spans ;;
        match found with
        | Some b => Ok b
        | None => is_empty_blocks rest
        end
      else if Py.in_strs block_type duplicated_types then
        has_rich_text' <- Py.contains_str "rich_text" block_data ;;
        if has_rich_text' then
          rich_text <- Py.getitem block_data (VStr "rich_text") ;;
          spans <- Py.iter rich_text ;;
          found <- scan_rich_text_dup spans ;;
          match found with
          | Some b => Ok b
          | None => is_empty_blocks rest
          end
        else is_empty_blocks rest
      else if Py.in_strs block_type always_visible_types then Ok false
      else if Py.truthy block_data then Ok false
      else is_empty_blocks rest
  end.

Definition is_empty (notion : Client) (page_id : pyval) : result bool :=
  blocks <- fetch_blocks notion page_id ;;
  is_empty_blocks blocks.

(** The emptiness check with the to_do/callout/toggle/quote/code branch
    removed, so that blocks of these types reach the always-visible test and
    the catch-all like any other block. *)
Fixpoint is_empty_blocks_collapsed (blocks : list pyval) : result bool :=
  match blocks with
  | [] => Ok true
  | block :: rest =>
      block_type <- Py.get block (VStr "type") VNone ;;
      block_data <- Py.get block block_type (VDict []) ;;
      has_rich_text <- Py.contains_str "rich_text" block_data ;;
      if has_rich_text then
        rich_text <- Py.getitem block_data (VStr "rich_text") ;;
        spans <- Py.iter rich_text ;;
        found <- scan_rich_text spans ;;
        match found with
        | Some b => Ok b
        | None => is_empty_blocks_collapsed rest
        end
      else if Py.in_strs block_type always_visible_types then Ok false
      else if Py.truthy block_data then Ok false
      else is_empty_blocks_collapsed rest
  end.

Definition is_empty_collapsed (notion : Client) (page_id : pyval)
  : result bool :=
  blocks <- fetch_blocks notion page_id ;;
  is_empty_blocks_collapsed blocks.

(** The emptiness check with only the inner scan of that branch removed:
    the branch still catches its five block types and does nothing. *)
Fixpoint is_empty_blocks_noscan (blocks : list pyval) : result bool :=
  match blocks with
  | [] => Ok true
  | block :: rest =>
      block_type <- Py.get block (VStr "type") VNone ;;
      block_data <- Py.get block block_type (VDict []) ;;
      has_rich_text <- Py.contains_str "rich_text" block_data ;;
      if has_rich_text then
        rich_text <- Py.getitem block_data (VStr "rich_text") ;;
        spans <- Py.iter rich_text ;;
        found <- scan_rich_text spans ;;
        match found with
        | Some b => Ok b
        | None => is_empty_blocks_noscan rest
        end
      else if Py.in_strs block_type duplicated_types then
        is_empty_blocks_noscan rest
      else if Py.in_strs block_type always_visible_types then Ok false
      else if Py.truthy block_data then Ok false
      else is_empty_blocks_noscan rest
  end.

(** ** What a run does to the outside

    The run reads lines from standard input and emits, in order, console
    output, prompts, requests to the generation endpoint and mutating calls
    to the remote service.  An exception leaves what was emitted before it
    in place. *)
Inductive event : Type :=
| Print (text : string)                      (* print(text) *)
| Prompt (text : string)                     (* input(text) *)
| Post (url : string) (body : pyval)         (* requests.post(url, json=body) *)
| Delete (block_id : pyval)                  (* notion.blocks.delete *)
| Update (page_id : pyval) (properties : pyval). (* notion.pages.update *)

Record world : Type := { stdin : list string; trace : list event }.

Definition M (A : Type) : Type := world -> result A * world.

Definition ret {A : Type} (a : A) : M A := fun w => (Ok a, w).

Definition raise {A : Type} (e : exn) : M A := fun w => (Raise e, w).

Definition mbind {A B : Type} (c : M A) (k : A -> M B) : M B :=
  fun w =>
    match c w with
    | (Ok a, w') => k a w'
    | (Raise e, w') => (Raise e, w')
    end.

Notation "x <~ c ;; k" := (mbind c (fun x => k))
  (at level 61, c at next level, right associativity).

Definition lift {A : Type} (r : result A) : M A := fun w => (r, w).

Definition emit (e : event) : M unit :=
  fun w => (Ok tt, {| stdin := stdin w; trace := (trace w ++ [e])%list |}).

(** [input(text)]: the prompt is written, then a line is read. *)
Definition input (text : string) : M string :=
  fun w =>
    let tr := (trace w ++ [Prompt text])%list in
    match stdin w with
    | [] => (Raise EOFError, {| stdin := []; trace := tr |})
    | line :: rest => (Ok line, {| stdin := rest; trace := tr |})
    end.

(** ** Title suggestion *)

(** The answer of [requests.post]: only its [json()] method is used. *)
Record Response : Type := { json : result pyval }.

(** [requests.post(url, json=body)] *)
Definition Requests : Type := string -> pyval -> result Response.

Definition default_model : string := "gemma:2b-instruct".

Definition generate_url : string := "http://localhost:11434/api/generate".

Definition llm_error : string := "[LLM error: no title]".

Definition prompt_for (text : string) : string :=
  "Suggest a short, clear title (max 10 words) that captures the main idea of this note. Respond with the title only — no formatting, no quotes, no Markdown::"
  ++ Str.nl ++ Str.nl ++ text.

(** The JSON body of the request. *)
Definition generate_body (text model : string) : pyval :=
  let prompt := prompt_for text in
  VDict [("model", VStr model); ("prompt", VStr prompt);
         ("stream", VBool false)].

Definition suggest_title_llm (post : Requests) (text : string) (model : string)
  : M string :=
  let body := generate_body text model in
  _ <~ emit (Post generate_url body) ;;
  response <~ lift (post generate_url body) ;;
  match (data <- json response ;;
         answer <- Py.getitem data (VStr "response") ;;
         Py.strip answer) with
  | Ok title => ret title
  | Raise _ => ret llm_error
  end.

Definition format_notion_url (page_id : pyval) : result string :=
  stripped <- Py.replace "-"%char "" page_id ;;
  Ok ("https://www.notion.so/" ++ stripped).

(** ** The command line *)
Module Argparse.

Inductive action : Type := store_true | help.

Record argument : Type := {
  option_strings : list string;
  dest : string;
  act : action;
  default : bool
}.

(** What [parse_args] returns: the attributes and their values. *)
Definition Namespace : Type := list (string * bool).

Fixpoint setattr (ns : Namespace) (name : string) (b : bool) : Namespace :=
  match ns with
  | [] => [(name, b)]
  | (k, v) :: ns' =>
      if String.eqb k name then (k, b) :: ns' else (k, v) :: setattr ns' name b
  end.

Fixpoint getattr (ns : Namespace) (name : string) : result bool :=
  match ns with
  | [] => Raise AttributeError
  | (k, v) :: ns' => if String.eqb k name then Ok v else getattr ns' name
  end.

(** The namespace before any argument is read: every [store_true]
    destination holds its default. *)
Fixpoint defaults (parser : list argument) : Namespace :=
  match parser with
  | [] => []
  | a :: parser' =>
      match act a with
      | store_true => setattr (defaults parser') (dest a) (default a)
      | help => defaults parser'
      end
  end.

(** [name=value] is split at the first [=]. *)
Fixpoint split_eq (s : string) : string * option string :=
  match s with
  | EmptyString => (EmptyString, None)
  | String c r =>
      if Ascii.eqb c "="%char then (EmptyString, Some r)
      else let (n, v) := split_eq r in (String c n, v)
  end.

Definition exact (name : string) (a : argument) : bool :=
  existsb (String.eqb name) (option_strings a).

Definition abbreviates (name : string) (a : argument) : bool :=
  existsb (fun o => String.prefix "--" o && String.prefix name o)
          (option_strings a).

(** The argument an option string selects: an exact match, or else the only
    long option it is a prefix of. *)
Definition resolve (parser : list argument) (name : string)
  : option argument :=
  match filter (exact name) parser with
  | a :: _ => Some a
  | [] =>
      if String.prefix "--" name then
        match filter (abbreviates name) parser with
        | [a] => Some a
        | _ => None
        end
      else None
  end.

(** [parse_args]: [None] when the parser leaves through [SystemExit] (help
    was asked for, or an argument is not recognised, is ambiguous or carries
    a value no flag takes).  The parser declares no positional argument, so
    nothing may follow a [--]; whether a final [--] alone is accepted varies
    with the version of [argparse], and it is accepted here. *)
Fixpoint parse (parser : list argument) (argv : list string) (ns : Namespace)
  : option Namespace :=
  match argv with
  | [] => Some ns
  | arg :: rest =>
      if String.eqb arg "--" then
        match rest with [] => Some ns | _ :: _ => None end
      else
        let (name, value) := split_eq arg in
        match resolve parser name, value with
        | Some a, None =>
            match act a with
            | store_true => parse parser rest (setattr ns (dest a) true)
            | help => None
            end
        | _, _ => None
        end
  end.

Definition parse_args (parser : list argument) (argv : list string)
  : option Namespace :=
  parse parser argv (defaults parser).

End Argparse.

(** The parser the script builds: the [-h]/[--help] option every
    [ArgumentParser] has, and the two [add_argument] calls. *)
Definition parser : list Argparse.argument :=
  [ {| Argparse.option_strings := ["-h"; "--help"];
       Argparse.dest := "help";
       Argparse.act := Argparse.help;
       Argparse.default := false |};
    {| Argparse.option_strings := ["--auto-apply"];
       Argparse.dest := "auto_apply";
       Argparse.act := Argparse.store_true;
       Argparse.default := false |};
    {| Argparse.option_strings := ["--confirm-delete"];
       Argparse.dest := "confirm_delete";
       Argparse.act := Argparse.store_true;
       Argparse.default := true |} ].

(** ** Action dispatch *)

(** The collaborators of a run. *)
Record Env : Type := { notion : Client; post : Requests }.

Definition title_properties (title : string) : pyval :=
  VDict [("title",
          VDict [("title",
                  VList [VDict [("text", VDict [("content", VStr title)])]])])].

(** [notion.pages.update(...)] followed by its [print]. *)
Definition apply_title (env : Env) (page_id : pyval) (title : string)
  : M unit :=
  _ <~ emit (Update page_id (title_properties title)) ;;
  _ <~ lift (pages_update (notion env) page_id (title_properties title)) ;;
  emit (Print ("Title applied." ++ Str.nl)).

Definition delete_prompt : string := "Delete this empty page? (yes/no): ".

Definition apply_prompt : string := "Apply this title? (yes/no): ".

(** The body of the [for idx, page in enumerate(..., 1)] loop. *)
Definition process_page (env : Env) (args : Argparse.Namespace) (idx : nat)
  (page : pyval) : M unit :=
  page_id <~ lift (Py.getitem page (VStr "id")) ;;
  last_edited <~ lift (t <- Py.getitem page (VStr "last_edited_time") ;;
                       Py.slice_to 10 t) ;;
  url <~ lift (format_notion_url page_id) ;;
  raw_text <~ lift (get_page_content_text (notion env) page_id) ;;
  suggested_title <~ (if Py.truthy (VStr raw_text)
                      then suggest_title_llm (post env) raw_text default_model
                      else ret "[No content]") ;;
  empty <~ lift (is_empty (notion env) page_id) ;;
  delete <~ lift (if empty then Argparse.getattr args "confirm_delete"
                  else Ok false) ;;
  if delete then
    url' <~ lift (format_notion_url page_id) ;;
    _ <~ emit (Print (Str.of_nat idx ++ ". Untitled and empty — " ++ url')) ;;
    answer <~ input delete_prompt ;;
    let confirm := Str.lower (Str.strip answer) in
    if String.eqb confirm "yes" then
      _ <~ emit (Delete page_id) ;;
      _ <~ lift (blocks_delete (notion env) page_id) ;;
      emit (Print ("Page deleted." ++ Str.nl))
    else ret tt
  else if Py.truthy (VStr suggested_title) then
    _ <~ emit (Print (Str.of_nat idx ++ ". [Untitled] — Suggested: "
                      ++ Str.quote ++ suggested_title ++ Str.quote)) ;;
    url' <~ lift (format_notion_url page_id) ;;
    _ <~ emit (Print ("   Open: " ++ url' ++ Str.nl)) ;;
    auto <~ lift (Argparse.getattr args "auto_apply") ;;
    if auto then apply_title env page_id suggested_title
    else
      answer <~ input apply_prompt ;;
      let confirm := Str.lower (Str.strip answer) in
      if String.eqb confirm "yes" then apply_title env page_id suggested_title
      else ret tt
  else ret tt.

(** The loop over the pages the stream yields, numbered from [idx]. *)
Fixpoint main_loop (env : Env) (args : Argparse.Namespace) (idx : nat)
  (pages : list pyval) : M unit :=
  match pages with
  | [] => ret tt
  | page :: rest =>
      _ <~ process_page env args idx page ;;
      main_loop env args (S idx) rest
  end.

(** The script from [parse_args] on.  [None]: the parser left through
    [SystemExit], or [fuel] searches did not exhaust the stream. *)
Definition main (env : Env) (argv : list string) (fuel : nat) (w : world)
  : option (result unit * world) :=
  match Argparse.parse_args parser argv with
  | None => None
  | Some args =>
      match stream_untitled_pages (notion env) fuel with
      | (_, GenFuel) => None
      | (pages, fin) =>
          Some ((_ <~ emit (Print ("Scanning for Untitled Pages:" ++ Str.nl)) ;;
                 _ <~ main_loop env args 1 pages ;;
                 match fin with
                 | GenRaise e => raise e
                 | _ => emit (Print ("Scan complete." ++ Str.nl))
                 end) w)
      end
  end.

(** * Specification vocabulary

    The predicates and functions the statements below are written with,
    defined on the values of the model. *)

(** A string made of whitespace characters only. *)
Inductive blank : string -> Prop :=
| blank_nil : blank EmptyString
| blank_cons (w s : string) :
    Str.is_space w = true -> blank s -> blank (w ++ s).

(** A property that the scan of [extract_title] steps over: a dictionary
    whose type tag is not ["title"]. *)
Definition other_property (prop : pyval) : bool :=
  match prop with
  | VDict d =>
      match Py.lookup d "type" with
      | Some ty => negb (Py.eq_str ty "title")
      | None => true
      end
  | _ => false
  end.

(** The lowercased titles that make a page untitled. *)
Definition untitled_names : list string := [""; "untitled"; "[untitled]"].

(** The letters of the Latin alphabet, small and capital, in the same
    order. *)
Definition small_letters : string := "abcdefghijklmnopqrstuvwxyz".

Definition capital_letters : string := "ABCDEFGHIJKLMNOPQRSTUVWXYZ".

(** The capital of a small letter, looked up by position; any other
    character is its own. *)
Fixpoint capital_in (small capitals : string) (c : ascii) : ascii :=
  match small, capitals with
  | String s small', String C capitals' =>
      if Ascii.eqb c s then C else capital_in small' capitals' c
  | _, _ => c
  end.

Definition capital (c : ascii) : ascii :=
  capital_in small_letters capital_letters c.

Definition is_capital (c : ascii) : bool :=
  existsb (Ascii.eqb c) (list_ascii_of_string capital_letters).

(** A string without capital letters, as the three names are. *)
Definition small_only (name : string) : bool :=
  forallb (fun c => negb (is_capital c)) (list_ascii_of_string name).

(** [title] is [name] in some letter case: character by character it holds
    the character of [name] or the capital of it. *)
Fixpoint reads_as (title name : string) : bool :=
  match title, name with
  | EmptyString, EmptyString => true
  | String a title', String b name' =>
      (Ascii.eqb a b || Ascii.eqb a (capital b)) && reads_as title' name'
  | _, _ => false
  end.

(** Every character, by code. *)
Definition all_ascii : list ascii := map ascii_of_nat (seq 0 256).

(** The pages of a search response. *)
Definition pages_of (response : pyval) : list pyval :=
  match Py.getitem response (VStr "results") with
  | Ok (VList pages) => pages
  | _ => []
  end.

(** The continuation cursor of a response, when it supplies one. *)
Definition next_cursor (response : pyval) : option pyval :=
  match Py.get response (VStr "next_cursor") VNone with
  | Ok cursor => if Py.truthy cursor then Some cursor else None
  | Raise _ => None
  end.

(** [paginated notion cursor responses]: searching from [cursor] and
    following each response's cursor produces [responses], the last of which
    supplies no cursor. *)
Inductive paginated (notion : Client) : pyval -> list pyval -> Prop :=
| paginated_last (cursor response : pyval) :
    search notion (VStr "") page_filter cursor = Ok response ->
    next_cursor response = None ->
    paginated notion cursor [response]
| paginated_next (cursor response cursor' : pyval) (rest : list pyval) :
    search notion (VStr "") page_filter cursor = Ok response ->
    next_cursor response = Some cursor' ->
    paginated notion cursor' rest ->
    paginated notion cursor (response :: rest).

(** A response whose ["results"] is a list of pages that [is_untitled]
    classifies. *)
Definition classifiable (response : pyval) : Prop :=
  (exists pages, Py.getitem response (VStr "results") = Ok (VList pages)) /\
  Forall (fun page => exists b, is_untitled page = Ok b) (pages_of response).

(** [is_untitled] as a test: a page on which it raises is not yielded. *)
Definition untitled (page : pyval) : bool :=
  match is_untitled page with
  | Ok b => b
  | Raise _ => false
  end.

(** A rich-text span: a dictionary with a type tag; the ["text"] variant
    holds a string under [text.content]. *)
Definition span_shaped (span : pyval) : bool :=
  match span with
  | VDict d =>
      match Py.lookup d "type" with
      | Some ty =>
          if Py.eq_str ty "text" then
            match Py.lookup d "text" with
            | Some (VDict t) =>
                match Py.lookup t "content" with
                | Some (VStr _) => true
                | _ => false
                end
            | _ => false
            end
          else true
      | None => false
      end
  | _ => false
  end.

(** A block: a dictionary with a string type tag, holding under that tag a
    dictionary of type-specific data whose ["rich_text"], when it has one,
    is a list of spans. *)
Definition block_shaped (block : pyval) : bool :=
  match block with
  | VDict d =>
      match Py.lookup d "type" with
      | Some (VStr ty) =>
          match Py.lookup d ty with
          | Some (VDict data) =>
              match Py.lookup data "rich_text" with
              | Some (VList spans) => forallb span_shaped spans
              | Some _ => false
              | None => true
              end
          | _ => false
          end
      | _ => false
      end
  | _ => false
  end.

(** The type tag, the type-specific data and the rich-text spans of a
    block; defaults stand for what a block does not hold. *)
Definition type_of (block : pyval) : string :=
  match block with
  | VDict d => match Py.lookup d "type" with Some (VStr ty) => ty | _ => "" end
  | _ => ""
  end.

Definition data_of (block : pyval) : list (string * pyval) :=
  match block with
  | VDict d =>
      match Py.lookup d (type_of block) with
      | Some (VDict data) => data
      | _ => []
      end
  | _ => []
  end.

Definition rich_text_of (block : pyval) : option (list pyval) :=
  match Py.lookup (data_of block) "rich_text" with
  | Some (VList spans) => Some spans
  | _ => None
  end.

(** The content of a span of the ["text"] variant. *)
Definition text_of (span : pyval) : option string :=
  match span with
  | VDict d =>
      match Py.lookup d "type", Py.lookup d "text" with
      | Some ty, Some (VDict t) =>
          if Py.eq_str ty "text" then
            match Py.lookup t "content" with
            | Some (VStr s) => Some s
            | _ => None
            end
          else None
      | _, _ => None
      end
  | _ => None
  end.

(** The contents of the ["text"] spans of a span list, in order. *)
Definition texts_of (spans : list pyval) : list string :=
  flat_map (fun span => match text_of span with
                        | Some s => [s]
                        | None => []
                        end) spans.

(** The contents of the ["text"] spans of the paragraph and heading blocks,
    in order. *)
Definition qualifying_texts (blocks : list pyval) : list string :=
  flat_map (fun block =>
              if existsb (String.eqb (type_of block)) text_block_types then
                match rich_text_of block with
                | Some spans => texts_of spans
                | None => []
                end
              else []) blocks.

(** The type-specific data of the block holds a rich-text list. *)
Definition has_rich_text (block : pyval) : bool :=
  match rich_text_of block with
  | Some _ => true
  | None => false
  end.

(** Some ["text"] span of the block has content that is not blank. *)
Definition nonblank_text (block : pyval) : bool :=
  match rich_text_of block with
  | Some spans =>
      existsb (fun s => negb (String.eqb (Str.strip s) "")) (texts_of spans)
  | None => false
  end.

(** The type of the block is in the always-visible set. *)
Definition always_visible (block : pyval) : bool :=
  existsb (String.eqb (type_of block)) always_visible_types.

(** The type of the block is one of the five of the second branch. *)
Definition duplicated (block : pyval) : bool :=
  existsb (String.eqb (type_of block)) duplicated_types.

(** The type-specific data of the block is empty. *)
Definition no_data (block : pyval) : bool :=
  match data_of block with
  | [] => true
  | _ :: _ => false
  end.

(** A block of an always-visible type whose data holds a rich-text list.
    The service sends no such block: the data of an image, a video, a file,
    a bookmark and the like has a caption, never a ["rich_text"]. *)
Definition visible_with_rich_text (block : pyval) : bool :=
  always_visible block && has_rich_text block.

(** The classification in the specification's words: a page is empty when
    no block carries non-blank text, none has an always-visible type, and
    none carries other non-empty data (data of a block that has no
    rich-text list and no always-visible type). *)
Definition specified_empty (blocks : list pyval) : bool :=
  forallb (fun block =>
             negb (nonblank_text block)
             && negb (always_visible block)
             && negb (negb (has_rich_text block)
                      && negb (always_visible block)
                      && negb (no_data block)))
          blocks.

(** What the loop of [is_empty] asks of one block: the type and the other
    data matter only for a block without a rich-text list, and the data only
    outside the five types of the second branch. *)
Definition passes (block : pyval) : bool :=
  if has_rich_text block then negb (nonblank_text block)
  else if duplicated block then true
  else negb (always_visible block) && no_data block.

(** A block that only the second branch keeps from the catch-all: its type
    is one of the five, its data holds no ["rich_text"] and is not empty. *)
Definition shielded (block : pyval) : bool :=
  match (block_type <- Py.get block (VStr "type") VNone ;;
         block_data <- Py.get block block_type (VDict []) ;;
         has_rich_text <- Py.contains_str "rich_text" block_data ;;
         Ok (negb has_rich_text
             && Py.in_strs block_type duplicated_types
             && Py.truthy block_data)) with
  | Ok b => b
  | Raise _ => false
  end.

(** The title [suggest_title_llm] makes of an answer of the endpoint. *)
Definition title_of_answer (response : Response) : string :=
  match (data <- json response ;;
         answer <- Py.getitem data (VStr "response") ;;
         Py.strip answer) with
  | Ok title => title
  | Raise _ => llm_error
  end.

(** The line printed before the deletion prompt. *)
Definition empty_notice (idx : nat) (pid : string) : string :=
  Str.of_nat idx ++ ". Untitled and empty — "
  ++ "https://www.notion.so/" ++ Str.replace "-"%char "" pid.

(** The kinds of events a trace is filtered by. *)
Definition is_post (e : event) : bool :=
  match e with Post _ _ => true | _ => false end.

Definition is_update (e : event) : bool :=
  match e with Update _ _ => true | _ => false end.

Definition is_delete (e : event) : bool :=
  match e with Delete _ => true | _ => false end.

Definition is_prompt (e : event) : bool :=
  match e with Prompt _ => true | _ => false end.

(** The two lines printed before a title is applied. *)
Definition suggestion_line (idx : nat) (title : string) : string :=
  Str.of_nat idx ++ ". [Untitled] — Suggested: "
  ++ Str.quote ++ title ++ Str.quote.

Definition open_line (pid : string) : string :=
  "   Open: " ++ ("https://www.notion.so/" ++ Str.replace "-"%char "" pid)
  ++ Str.nl.

(** What the step emits for a page with text under [--auto-apply], given
    the title made of the endpoint's answer. *)
Definition auto_apply_events (env : Env) (idx : nat) (pid raw_text : string)
  (title : string) : list event :=
  Post generate_url (generate_body raw_text default_model)
  :: (if String.eqb title "" then []
      else
        [Print (suggestion_line idx title);
         Print (open_line pid);
         Update (VStr pid) (title_properties title)]
        ++ match pages_update (notion env) (VStr pid)
                              (title_properties title) with
           | Ok _ => [Print ("Title applied." ++ Str.nl)]
           | Raise _ => []
           end)%list.

(** * Sample data

    Pages, blocks, responses and collaborators on which the statements are
    exercised. *)

(** A page whose title property holds [spans]. *)
Definition titled_page (spans : list pyval) : pyval :=
  VDict [("id", VStr "1f2e-3d4c");
         ("last_edited_time", VStr "2024-05-01T10:00:00.000Z");
         ("properties",
          VDict [("Tags", VDict [("type", VStr "multi_select");
                                 ("multi_select", VList [])]);
                 ("Name", VDict [("id", VStr "title");
                                 ("type", VStr "title");
                                 ("title", VList spans)])])].

Definition text_span (content : string) : pyval :=
  VDict [("type", VStr "text");
         ("text", VDict [("content", VStr content)]);
         ("plain_text", VStr content)].

(** An endpoint that cannot be reached: [requests.post] raises. *)
Definition unreachable : Requests := fun _ _ => Raise ConnectionError.

(** An endpoint that answers with [response]. *)
Definition answering (response : Response) : Requests :=
  fun _ _ => Ok response.

Definition demo_page_1 : pyval := titled_page [text_span "Untitled"].
Definition demo_page_2 : pyval := titled_page [text_span "Roadmap"].
Definition demo_page_3 : pyval := titled_page [].

Definition demo_response_1 : pyval :=
  VDict [("object", VStr "list");
         ("results", VList [demo_page_1; demo_page_2]);
         ("next_cursor", VStr "c1");
         ("has_more", VBool true)].

Definition demo_response_2 : pyval :=
  VDict [("object", VStr "list");
         ("results", VList [demo_page_3]);
         ("next_cursor", VNone);
         ("has_more", VBool false)].

Definition demo_search (query filter cursor : pyval) : result pyval :=
  match cursor with
  | VNone => Ok demo_response_1
  | VStr "c1" => Ok demo_response_2
  | _ => Raise (OtherError "APIResponseError")
  end.

Definition demo_search_client : Client :=
  {| search := demo_search;
     blocks_children_list := fun _ => Raise (OtherError "APIResponseError");
     blocks_delete := fun _ => Ok VNone;
     pages_update := fun _ _ => Ok VNone |}.

Definition paragraph (spans : list pyval) : pyval :=
  VDict [("object", VStr "block");
         ("type", VStr "paragraph");
         ("paragraph", VDict [("rich_text", VList spans);
                              ("color", VStr "default")])].

Definition heading_1 (spans : list pyval) : pyval :=
  VDict [("object", VStr "block");
         ("type", VStr "heading_1");
         ("heading_1", VDict [("rich_text", VList spans);
                              ("is_toggleable", VBool false)])].

Definition quote_block (spans : list pyval) : pyval :=
  VDict [("object", VStr "block");
         ("type", VStr "quote");
         ("quote", VDict [("rich_text", VList spans)])].

Definition divider : pyval :=
  VDict [("object", VStr "block"); ("type", VStr "divider");
         ("divider", VDict [])].

Definition mention_span : pyval :=
  VDict [("type", VStr "mention");
         ("mention", VDict [("type", VStr "date")]);
         ("plain_text", VStr "2024-05-01")].

(** A client whose every page has the block children [blocks]. *)
Definition client_with_blocks (blocks : list pyval) : Client :=
  {| search := fun _ _ _ => Ok (VDict [("results", VList []);
                                       ("next_cursor", VNone)]);
     blocks_children_list :=
       fun _ => Ok (VDict [("object", VStr "list");
                           ("results", VList blocks);
                           ("next_cursor", VNone);
                           ("has_more", VBool false)]);
     blocks_delete := fun _ => Ok VNone;
     pages_update := fun _ _ => Ok VNone |}.

Definition meeting_blocks : list pyval :=
  [ paragraph [text_span " Meeting"];
    quote_block [text_span "skipped"];
    divider;
    heading_1 [mention_span; text_span "notes "] ].

Definition to_do_unchecked : pyval :=
  VDict [("object", VStr "block");
         ("type", VStr "to_do");
         ("to_do", VDict [("checked", VBool false)])].

Definition image_block : pyval :=
  VDict [("object", VStr "block");
         ("type", VStr "image");
         ("image", VDict [("type", VStr "external");
                          ("external",
                           VDict [("url", VStr "https://example.org/a.png")]);
                          ("caption", VList [])])].

Definition blank_blocks : list pyval :=
  [ paragraph [text_span ""]; divider; quote_block [text_span ""] ].

Definition a_page_id : pyval := VStr "1f2e-3d4c".

Definition cautious_args : Argparse.Namespace :=
  [("confirm_delete", true); ("auto_apply", false)].

Definition silent_post : Requests :=
  fun _ _ => Ok {| json := Ok (VDict [("model", VStr "gemma:2b-instruct");
                                      ("response", VStr "  ");
                                      ("done", VBool true)]) |}.

Definition eager_args : Argparse.Namespace :=
  [("confirm_delete", true); ("auto_apply", true)].

Definition helpful_post : Requests :=
  fun _ _ => Ok {| json := Ok (VDict [("model", VStr "gemma:2b-instruct");
                                      ("response", VStr " Weekly sync ");
                                      ("done", VBool true)]) |}.

Definition demo_env : Env :=
  {| notion :=
       {| search := demo_search;
          blocks_children_list :=
            blocks_children_list (client_with_blocks meeting_blocks);
          blocks_delete := fun _ => Ok VNone;
          pages_update := fun _ _ => Ok VNone |};
     post := helpful_post |}.

(** * Further vocabulary and sample data

    What the statements of the last part of the file are written with. *)


Definition yes_env : Env :=
  {| notion := client_with_blocks blank_blocks; post := silent_post |}.

Definition quoted_blocks : list pyval :=
  [ quote_block [text_span "Only a quotation"]; divider ].

Definition quoted_env : Env :=
  {| notion := client_with_blocks quoted_blocks; post := helpful_post |}.

Definition meeting_env : Env :=
  {| notion := client_with_blocks meeting_blocks; post := helpful_post |}.

(** The line printed after a deletion. *)
Definition deleted_line : string := "Page deleted." ++ Str.nl.

(** The line printed after an update. *)
Definition applied_line : string := "Title applied." ++ Str.nl.

(** What a step emits when it asks before applying a non-empty title. *)
Definition prompted_events (env : Env) (idx : nat) (pid raw_text : string)
  (title answer : string) : list event :=
  [Post generate_url (generate_body raw_text default_model);
   Print (suggestion_line idx title);
   Print (open_line pid);
   Prompt apply_prompt]
  ++ (if String.eqb (Str.lower (Str.strip answer)) "yes" then
        Update (VStr pid) (title_properties title)
        :: match pages_update (notion env) (VStr pid)
                              (title_properties title) with
           | Ok _ => [Print applied_line]
           | Raise _ => []
           end
      else [])%list.

(** What a step emits for a page without extracted text that is not empty,
    under [--auto-apply]. *)
Definition no_content_events (env : Env) (idx : nat) (pid : string)
  : list event :=
  [Print (suggestion_line idx "[No content]");
   Print (open_line pid);
   Update (VStr pid) (title_properties "[No content]")]
  ++ match pages_update (notion env) (VStr pid)
                        (title_properties "[No content]") with
     | Ok _ => [Print applied_line]
     | Raise _ => []
     end.

(** A service that hands out a cursor with every response. *)
Definition endless_client : Client :=
  {| search := fun _ _ _ => Ok (VDict [("results", VList [demo_page_1]);
                                       ("next_cursor", VStr "again");
                                       ("has_more", VBool true)]);
     blocks_children_list := fun _ => Ok (VDict [("results", VList [])]);
     blocks_delete := fun _ => Ok VNone;
     pages_update := fun _ _ => Ok VNone |}.

(** A page whose title span holds [content] where a string is expected. *)
Definition page_with_content (content : pyval) : pyval :=
  VDict [("id", VStr "9a8b-7c6d");
         ("last_edited_time", VStr "2024-05-02T08:30:00.000Z");
         ("properties",
          VDict [("Name", VDict [("type", VStr "title");
                                 ("title",
                                  VList [VDict [("type", VStr "text");
                                                ("text",
                                                 VDict [("content",
                                                         content)])]])])])].

Definition broken_results_client : Client :=
  {| search := fun _ _ _ =>
                 Ok (VDict [("results",
                             VList [demo_page_1; demo_page_2;
                                    page_with_content VNone; demo_page_3]);
                            ("next_cursor", VNone)]);
     blocks_children_list := fun _ => Ok (VDict [("results", VList [])]);
     blocks_delete := fun _ => Ok VNone;
     pages_update := fun _ _ => Ok VNone |}.

(** A block without type tag. *)
Definition untyped_block : pyval :=
  VDict [("object", VStr "block"); ("id", VStr "0a1b")].

(** The characters of a string other than the hyphen. *)
Definition without_hyphens (s : string) : string :=
  string_of_list_ascii
    (filter (fun c => negb (Ascii.eqb c "-"%char)) (list_ascii_of_string s)).




(** A string that [lstrip] leaves alone: none of the three tests at its
    start finds a whitespace character. *)
Definition clean_start (s : string) : Prop :=
  match s with
  | EmptyString => True
  | String c1 r1 =>
      Str.is_space (String c1 EmptyString) = false /\
      match r1 with
      | EmptyString => True
      | String c2 r2 =>
          Str.is_space (String c1 (String c2 EmptyString)) = false /\
          match r2 with
          | EmptyString => True
          | String c3 _ =>
              Str.is_space (String c1 (String c2 (String c3 EmptyString)))
              = false
          end
      end
  end.

(** * Properties *)

(** ** The error monad *)

Lemma bind_Ok {A B : Type} (c : result A) (k : A -> result B) (b : B) :
  bind c k = Ok b -> exists a, c = Ok a /\ k a = Ok b.
Proof.
  destruct c as [a | e]; simpl; intros H; [exists a; auto | discriminate].
Qed.

(** ** Blank strings *)

Lemma is_space_In (w : string) :
  Str.is_space w = true -> In w Str.whitespace.
Proof.
  unfold Str.is_space. rewrite existsb_exists.
  intros (x & Hx & Heq). apply String.eqb_eq in Heq. now subst.
Qed.

Lemma append_nil_r (s : string) : s ++ EmptyString = s.
Proof. induction s; simpl; congruence. Qed.

Lemma append_assoc (a b c : string) : (a ++ b) ++ c = a ++ b ++ c.
Proof. induction a; simpl; congruence. Qed.

Lemma blank_app (a b : string) : blank a -> blank b -> blank (a ++ b).
Proof.
  induction 1 as [| w s Hw Hs IH]; intros Hb; simpl; auto.
  rewrite append_assoc. constructor; auto.
Qed.

Lemma blank_space : blank " ".
Proof.
  change " " with (" " ++ EmptyString). constructor; [reflexivity | constructor].
Qed.

Lemma lstrip_space (w s : string) :
  Str.is_space w = true -> Str.lstrip (w ++ s) = Str.lstrip s.
Proof.
  intros H. apply is_space_In in H.
  repeat (destruct H as [H | H]; [subst w; reflexivity |]).
  destruct H.
Qed.

Lemma lstrip_blank (s : string) : blank s -> Str.lstrip s = EmptyString.
Proof.
  induction 1 as [| w s Hw Hs IH]; [reflexivity |].
  now rewrite lstrip_space.
Qed.

(** [lstrip] removes a blank prefix and nothing else. *)
Lemma lstrip_prefix (n : nat) :
  forall s, String.length s <= n ->
            exists p, blank p /\ s = p ++ Str.lstrip s.
Proof.
  induction n as [| n IH]; intros s Hlen.
  - destruct s; [| simpl in Hlen; lia]. exists EmptyString. split; [constructor | reflexivity].
  - destruct s as [| c1 r1]; [exists EmptyString; split; [constructor | reflexivity] |].
    simpl in Hlen. cbn [Str.lstrip].
    destruct (Str.is_space (String c1 EmptyString)) eqn:H1.
    { destruct (IH r1 ltac:(lia)) as (p & Hp & Heq).
      exists (String c1 EmptyString ++ p). split; [constructor; auto |].
      simpl. now rewrite <- Heq. }
    destruct r1 as [| c2 r2]; [exists EmptyString; split; [constructor | reflexivity] |].
    simpl in Hlen.
    destruct (Str.is_space (String c1 (String c2 EmptyString))) eqn:H2.
    { destruct (IH r2 ltac:(lia)) as (p & Hp & Heq).
      exists (String c1 (String c2 EmptyString) ++ p). split; [constructor; auto |].
      simpl. now rewrite <- Heq. }
    destruct r2 as [| c3 r3]; [exists EmptyString; split; [constructor | reflexivity] |].
    simpl in Hlen.
    destruct (Str.is_space (String c1 (String c2 (String c3 EmptyString)))) eqn:H3.
    { destruct (IH r3 ltac:(lia)) as (p & Hp & Heq).
      exists (String c1 (String c2 (String c3 EmptyString)) ++ p).
      split; [constructor; auto |]. simpl. now rewrite <- Heq. }
    exists EmptyString; split; [constructor | reflexivity].
Qed.

(** [rstrip] removes a blank suffix and nothing else. *)
Lemma rstrip_suffix (s : string) :
  exists q, blank q /\ s = Str.rstrip s ++ q.
Proof.
  induction s as [| c r (q & Hq & Heq)].
  - exists EmptyString. split; [constructor | reflexivity].
  - cbn [Str.rstrip]. cbv zeta.
    destruct (Str.is_space (String c (Str.rstrip r))) eqn:Hsp.
    + exists (String c (Str.rstrip r) ++ q). split; [constructor; auto |].
      simpl. now rewrite <- Heq.
    + exists q. split; auto. simpl. now rewrite <- Heq.
Qed.

Lemma rstrip_empty_blank (s : string) :
  Str.rstrip s = EmptyString -> blank s.
Proof.
  intros H. destruct (rstrip_suffix s) as (q & Hq & Heq).
  rewrite H in Heq. simpl in Heq. now subst.
Qed.

(** A string strips to the empty string exactly when it is blank. *)
Lemma strip_empty_iff (s : string) : Str.strip s = EmptyString <-> blank s.
Proof.
  unfold Str.strip. split.
  - intros H. apply rstrip_empty_blank in H.
    destruct (lstrip_prefix (String.length s) s (le_n _)) as (p & Hp & Heq).
    rewrite Heq. now apply blank_app.
  - intros H. now rewrite lstrip_blank.
Qed.

Lemma blank_join (l : list string) :
  Forall blank l -> blank (Str.join " " l).
Proof.
  induction 1 as [| x l Hx Hl IH]; [constructor |].
  destruct l as [| y l']; [exact Hx |].
  change (Str.join " " (x :: y :: l')) with (x ++ " " ++ Str.join " " (y :: l')).
  apply blank_app; auto. apply blank_app; auto. exact blank_space.
Qed.

(** ** Title resolution *)

Lemma scan_properties_skip (pre rest : list pyval) :
  forallb other_property pre = true ->
  scan_properties (pre ++ rest) = scan_properties rest.
Proof.
  induction pre as [| p pre IH]; simpl; [reflexivity |].
  intros H. apply andb_true_iff in H as [Hp Hpre].
  destruct p as [| | | | | | d]; try discriminate. simpl in Hp |- *.
  destruct (Py.lookup d "type") as [ty |]; simpl.
  - apply negb_true_iff in Hp. rewrite Hp. auto.
  - auto.
Qed.

Lemma scan_properties_none (props : list pyval) :
  forallb other_property props = true -> scan_properties props = Ok None.
Proof.
  intros H. rewrite <- (app_nil_r props). now rewrite scan_properties_skip.
Qed.

Lemma extract_title_returns (page : pyval) :
  exists title, extract_title page = Ok title.
Proof.
  unfold extract_title.
  destruct (extract_title_try page) as [[title |] | e]; eauto.
Qed.

(** C5. [extract_title] never raises: it returns a value for every page.
    When the first property typed ["title"] (the ones before it being
    dictionaries of another type) has a non-empty span list, the result is
    the first span's [text.content]; when that list is empty or missing, it
    is the empty string; when the body of the [try] raises, or no property
    is typed ["title"], it is the sentinel ["[Untitled]"]. *)
Theorem extract_title_never_raises (page : pyval) :
  (exists title, extract_title page = Ok title) /\
  (forall pd props pre k d post,
      page = VDict pd ->
      Py.lookup pd "properties" = Some (VDict props) ->
      props = (pre ++ (k, VDict d) :: post)%list ->
      forallb other_property (map snd pre) = true ->
      Py.lookup d "type" = Some (VStr "title") ->
      (forall span spans text content,
          Py.lookup d "title" = Some (VList (span :: spans)) ->
          Py.getitem span (VStr "text") = Ok text ->
          Py.getitem text (VStr "content") = Ok content ->
          extract_title page = Ok content) /\
      (Py.lookup d "title" = Some (VList []) \/ Py.lookup d "title" = None ->
       extract_title page = Ok (VStr ""))) /\
  (forall e, extract_title_try page = Raise e ->
             extract_title page = Ok (VStr "[Untitled]")) /\
  (forall pd props,
      page = VDict pd ->
      Py.lookup pd "properties" = Some (VDict props) ->
      forallb other_property (map snd props) = true ->
      extract_title page = Ok (VStr "[Untitled]")).
Proof.
  split; [apply extract_title_returns |]. split; [| split].
  - intros pd props pre k d post -> Hprops -> Hpre Hty.
    assert (Hscan : forall r,
               (ty <- Py.get (VDict d) (VStr "type") VNone ;;
                if Py.eq_str ty "title" then
                  title_list <- Py.get (VDict d) (VStr "title") (VList []) ;;
                  if Py.truthy title_list then
                    first <- Py.getitem title_list (VInt 0) ;;
                    text <- Py.getitem first (VStr "text") ;;
                    content <- Py.getitem text (VStr "content") ;;
                    Ok (Some content)
                  else Ok (Some (VStr ""))
                else scan_properties (map snd post)) = Ok (Some r) ->
               extract_title (VDict pd) = Ok r).
    { intros r Hr. unfold extract_title, extract_title_try. simpl.
      rewrite Hprops. simpl. rewrite map_app, scan_properties_skip by exact Hpre.
      simpl map. cbn [scan_properties]. now rewrite Hr. }
    split.
    + intros span spans text content Htitle Htext Hcontent.
      apply Hscan. simpl. rewrite Hty. simpl. rewrite Htitle. simpl.
      unfold Py.index. simpl. rewrite Htext. simpl. now rewrite Hcontent.
    + intros Htitle. apply Hscan. simpl. rewrite Hty. simpl.
      destruct Htitle as [-> | ->]; reflexivity.
  - intros e He. unfold extract_title. now rewrite He.
  - intros pd props -> Hprops Hall. unfold extract_title, extract_title_try.
    simpl. rewrite Hprops. simpl. now rewrite scan_properties_none.
Qed.

Lemma extract_title_never_raises_witness :
  extract_title (titled_page [text_span "Untitled"; text_span "x"])
  = Ok (VStr "Untitled")
  /\ extract_title (titled_page []) = Ok (VStr "")
  /\ extract_title (VList []) = Ok (VStr "[Untitled]").
Proof.
  split; [| split].
  - pose proof (extract_title_never_raises
                  (titled_page [text_span "Untitled"; text_span "x"])) as H.
    destruct H as (_ & H & _).
    eapply (H _ _ [(_, _)] _ _ []); try reflexivity.
  - pose proof (extract_title_never_raises (titled_page [])) as H.
    destruct H as (_ & H & _).
    eapply (H _ _ [(_, _)] _ _ []); try reflexivity. now left.
  - pose proof (extract_title_never_raises (VList [])) as H.
    destruct H as (_ & _ & H & _).
    apply (H AttributeError). reflexivity.
Defined.

(** ** Untitled pages *)

Lemma in_strs_In (s : string) (l : list string) :
  Py.in_strs (VStr s) l = true <-> In s l.
Proof.
  unfold Py.in_strs. rewrite existsb_exists. simpl. split.
  - intros (x & Hx & Heq). apply String.eqb_eq in Heq. now subst.
  - intros H. exists s. split; [exact H | apply String.eqb_refl].
Qed.

Lemma is_untitled_eq (page : pyval) (s : string) :
  extract_title page = Ok (VStr s) ->
  is_untitled page = Ok (Py.in_strs (VStr (Str.lower s)) untitled_names).
Proof. intros H. unfold is_untitled. rewrite H. reflexivity. Qed.

Lemma is_untitled_Ok (page : pyval) (b : bool) :
  is_untitled page = Ok b ->
  exists s, extract_title page = Ok (VStr s)
            /\ b = Py.in_strs (VStr (Str.lower s)) untitled_names.
Proof.
  unfold is_untitled. intros H.
  apply bind_Ok in H as (title & Htitle & H).
  apply bind_Ok in H as (lowered & Hlow & H).
  destruct title as [| | | | s | |]; try discriminate.
  inversion Hlow; subst lowered. inversion H; subst b. eauto.
Qed.

(** Lowering a character gives a character that is no capital exactly when
    it was that character or the capital of it. *)
Lemma all_ascii_In (a : ascii) : In a all_ascii.
Proof.
  rewrite <- (ascii_nat_embedding a). apply in_map. apply in_seq.
  pose proof (nat_ascii_bounded a). lia.
Qed.

Lemma lower_ascii_capital (a b : ascii) :
  is_capital b = false ->
  Ascii.eqb (Str.lower_ascii a) b = Ascii.eqb a b || Ascii.eqb a (capital b).
Proof.
  assert (H : forallb
                (fun a =>
                   forallb
                     (fun b =>
                        is_capital b
                        || Bool.eqb (Ascii.eqb (Str.lower_ascii a) b)
                                    (Ascii.eqb a b || Ascii.eqb a (capital b)))
                     all_ascii)
                all_ascii = true) by (vm_compute; reflexivity).
  rewrite forallb_forall in H. specialize (H a (all_ascii_In a)).
  rewrite forallb_forall in H. specialize (H b (all_ascii_In b)).
  intros Hb. rewrite Hb in H. now apply Bool.eqb_prop in H.
Qed.

Lemma lower_reads_as (name title : string) :
  small_only name = true ->
  String.eqb (Str.lower title) name = reads_as title name.
Proof.
  revert title. induction name as [| b name IH]; intros [| a title] Hs;
    try reflexivity.
  unfold small_only in Hs. cbn [list_ascii_of_string forallb] in Hs.
  apply andb_true_iff in Hs as [Hb Hs]. apply negb_true_iff in Hb.
  cbn [Str.lower String.eqb reads_as].
  rewrite <- (IH title Hs), <- (lower_ascii_capital a b Hb).
  now destruct (Ascii.eqb (Str.lower_ascii a) b).
Qed.

Lemma in_strs_reads_as (title : string) :
  Py.in_strs (VStr (Str.lower title)) untitled_names
  = existsb (reads_as title) untitled_names.
Proof.
  unfold Py.in_strs, untitled_names. cbn [existsb Py.eq_str].
  now rewrite !lower_reads_as.
Qed.

(** C6. [is_untitled] answers [True] exactly when the resolved title is a
    string that is [""], ["untitled"] or ["[untitled]"] up to letter case,
    that is, when lowercasing it gives one of the three, and [False] exactly
    when it is a string that is none of them in any letter case. *)
Theorem is_untitled_iff (page : pyval) :
  (is_untitled page = Ok true <->
   exists title,
     extract_title page = Ok (VStr title) /\
     exists name,
       In name [""; "untitled"; "[untitled]"] /\ reads_as title name = true) /\
  (is_untitled page = Ok false <->
   exists title,
     extract_title page = Ok (VStr title) /\
     forall name,
       In name [""; "untitled"; "[untitled]"] -> reads_as title name = false).
Proof.
  fold untitled_names. split; split.
  - intros H. apply is_untitled_Ok in H as (s & Hs & Hb).
    exists s. split; [exact Hs |]. rewrite in_strs_reads_as in Hb.
    symmetry in Hb. apply existsb_exists in Hb. exact Hb.
  - intros (s & Hs & Hin). rewrite (is_untitled_eq _ _ Hs).
    f_equal. rewrite in_strs_reads_as. now apply existsb_exists.
  - intros H. apply is_untitled_Ok in H as (s & Hs & Hb).
    exists s. split; [exact Hs |]. rewrite in_strs_reads_as in Hb.
    intros name Hin. destruct (reads_as s name) eqn:E; [| reflexivity].
    rewrite Hb. symmetry. apply existsb_exists. now exists name.
  - intros (s & Hs & Hin). rewrite (is_untitled_eq _ _ Hs). f_equal.
    rewrite in_strs_reads_as.
    destruct (existsb (reads_as s) untitled_names) eqn:E; [| reflexivity].
    apply existsb_exists in E as (name & Hname & Hr).
    now rewrite (Hin name Hname) in Hr.
Qed.

(** A title in mixed case is untitled; a proper title is not. *)
Lemma is_untitled_iff_witness :
  is_untitled (titled_page [text_span "UnTitled"]) = Ok true /\
  is_untitled (titled_page [text_span "[UNTITLED]"]) = Ok true /\
  is_untitled (titled_page [text_span "Roadmap"]) = Ok false.
Proof.
  split; [| split].
  - apply (proj1 (is_untitled_iff (titled_page [text_span "UnTitled"]))).
    exists "UnTitled". split; [reflexivity |].
    exists "untitled". split; [simpl; auto | reflexivity].
  - apply (proj1 (is_untitled_iff (titled_page [text_span "[UNTITLED]"]))).
    exists "[UNTITLED]". split; [reflexivity |].
    exists "[untitled]". split; [simpl; auto | reflexivity].
  - apply (proj2 (is_untitled_iff (titled_page [text_span "Roadmap"]))).
    exists "Roadmap". split; [reflexivity |].
    intros name [<- | [<- | [<- | []]]]; reflexivity.
Defined.

Example is_untitled_upper :
  is_untitled (titled_page [text_span "UnTitled"]) = Ok true.
Proof. reflexivity. Qed.

Example is_untitled_bracket :
  is_untitled (titled_page [text_span "[UNTITLED]"]) = Ok true.
Proof. reflexivity. Qed.

Example is_untitled_named :
  is_untitled (titled_page [text_span "Meeting notes"]) = Ok false.
Proof. reflexivity. Qed.

(** A malformed page resolves to the sentinel, which counts as untitled. *)
Example is_untitled_malformed : is_untitled (VList []) = Ok true.
Proof. reflexivity. Qed.

(** ** The command line *)

Lemma getattr_setattr_true (ns : Argparse.Namespace) (name other : string) :
  Argparse.getattr ns name = Ok true ->
  Argparse.getattr (Argparse.setattr ns other true) name = Ok true.
Proof.
  induction ns as [| [k v] ns IH]; simpl; [discriminate |].
  intros H. destruct (String.eqb k other) eqn:Ek; simpl.
  - destruct (String.eqb k name); auto.
  - destruct (String.eqb k name); auto.
Qed.

(** An attribute that holds [True] still does after any accepted parse:
    a [store_true] flag only ever stores [True]. *)
Lemma parse_keeps_true (p : list Argparse.argument) (name : string) :
  forall argv ns ns',
    Argparse.getattr ns name = Ok true ->
    Argparse.parse p argv ns = Some ns' ->
    Argparse.getattr ns' name = Ok true.
Proof.
  induction argv as [| arg rest IH]; simpl; intros ns ns' Hns Hp.
  - now inversion Hp; subst.
  - destruct (String.eqb arg "--").
    + destruct rest; [now inversion Hp; subst | discriminate].
    + destruct (Argparse.split_eq arg) as [n v].
      destruct (Argparse.resolve p n) as [a |]; [| discriminate].
      destruct v; [discriminate |].
      destruct (Argparse.act a); [| discriminate].
      eapply IH; [| exact Hp]. now apply getattr_setattr_true.
Qed.

(** C3. Whatever command line the parser accepts, [args.confirm_delete] is
    [True], so the condition [is_empty(page_id) and args.confirm_delete] has
    the value of [is_empty(page_id)]. *)
Theorem confirm_delete_always_true (argv : list string)
  (args : Argparse.Namespace) :
  Argparse.parse_args parser argv = Some args ->
  Argparse.getattr args "confirm_delete" = Ok true /\
  forall empty : bool,
    (if empty then Argparse.getattr args "confirm_delete" else Ok false)
    = Ok empty.
Proof.
  intros H.
  assert (Hcd : Argparse.getattr args "confirm_delete" = Ok true).
  { eapply parse_keeps_true; [| exact H]. reflexivity. }
  split; [exact Hcd |]. intros [|]; [exact Hcd | reflexivity].
Qed.

Lemma confirm_delete_always_true_witness :
  Argparse.parse_args parser ["--auto-apply"; "--confirm"] = Some eager_args /\
  Argparse.getattr eager_args "confirm_delete" = Ok true.
Proof.
  split; [reflexivity |].
  apply (confirm_delete_always_true ["--auto-apply"; "--confirm"]).
  reflexivity.
Defined.

(** ** Title suggestion *)

Lemma suggest_title_llm_answered (response : Response) (text model : string)
  (w : world) :
  fst (suggest_title_llm (answering response) text model w)
  = Ok match (data <- json response ;;
              answer <- Py.getitem data (VStr "response") ;;
              Py.strip answer) with
       | Ok title => title
       | Raise _ => llm_error
       end.
Proof.
  unfold suggest_title_llm, mbind, emit, lift, answering. simpl.
  destruct (data <- json response ;;
            answer <- Py.getitem data (VStr "response") ;;
            Py.strip answer); reflexivity.
Qed.

(** C1. The call to [requests.post] stands before the [try]: when the
    endpoint cannot be reached, [suggest_title_llm] raises instead of
    returning the sentinel.  Once the endpoint has answered, the function
    returns a string whatever the answer holds, and the sentinel when
    [json()] raises, when the decoded value has no ["response"] key, or
    when that field is not a string. *)
Theorem suggest_title_llm_request_error_escapes (text model : string)
  (w : world) :
  fst (suggest_title_llm unreachable text model w) = Raise ConnectionError /\
  (forall response, exists title,
      fst (suggest_title_llm (answering response) text model w) = Ok title) /\
  (forall e,
      fst (suggest_title_llm (answering {| json := Raise e |}) text model w)
      = Ok llm_error) /\
  (forall d,
      Py.lookup d "response" = None ->
      fst (suggest_title_llm (answering {| json := Ok (VDict d) |})
                             text model w)
      = Ok llm_error) /\
  (forall d s,
      Py.lookup d "response" = Some (VStr s) ->
      fst (suggest_title_llm (answering {| json := Ok (VDict d) |})
                             text model w)
      = Ok (Str.strip s)).
Proof.
  split; [reflexivity |]. split; [| split; [| split]].
  - intros response. rewrite suggest_title_llm_answered. eauto.
  - intros e. now rewrite suggest_title_llm_answered.
  - intros d Hd. rewrite suggest_title_llm_answered. simpl. now rewrite Hd.
  - intros d s Hd. rewrite suggest_title_llm_answered. simpl. now rewrite Hd.
Qed.

(** ** The stream of untitled pages *)

Lemma yield_untitled_filter (pages : list pyval) :
  Forall (fun page => exists b, is_untitled page = Ok b) pages ->
  yield_untitled pages = (filter untitled pages, None).
Proof.
  induction 1 as [| page rest (b & Hb) Hrest IH]; [reflexivity |].
  simpl. unfold untitled at 1. rewrite Hb, IH. reflexivity.
Qed.

Lemma stream_from_paginated (notion : Client) (cursor : pyval)
  (responses : list pyval) :
  paginated notion cursor responses ->
  Forall classifiable responses ->
  forall fuel, length responses <= fuel ->
    stream_from notion fuel cursor
    = (filter untitled (flat_map pages_of responses), GenDone).
Proof.
  induction 1 as [cursor response Hs Hn
                 | cursor response cursor' rest Hs Hn Hrest IH];
    intros Hall fuel Hfuel.
  - apply Forall_inv in Hall. destruct Hall as ((pages & Hp) & Hcl).
    destruct fuel as [| fuel]; [simpl in Hfuel; lia |].
    simpl. rewrite Hs. rewrite Hp. simpl.
    unfold pages_of in Hcl |- *. rewrite Hp in Hcl |- *.
    rewrite (yield_untitled_filter _ Hcl).
    unfold next_cursor in Hn.
    destruct (Py.get response (VStr "next_cursor") VNone) as [c | e] eqn:Hg.
    + destruct (Py.truthy c); [discriminate |]. simpl.
      now rewrite app_nil_r.
    + destruct response; simpl in Hp, Hg; try discriminate.
      destruct (Py.lookup d "next_cursor"); discriminate.
  - pose proof (Forall_inv Hall) as ((pages & Hp) & Hcl).
    apply Forall_inv_tail in Hall.
    destruct fuel as [| fuel]; [simpl in Hfuel; lia |].
    simpl in Hfuel. simpl. rewrite Hs. rewrite Hp. simpl.
    unfold pages_of in Hcl |- *. rewrite Hp in Hcl |- *.
    rewrite (yield_untitled_filter _ Hcl).
    unfold next_cursor in Hn.
    destruct (Py.get response (VStr "next_cursor") VNone) as [c | e];
      [| discriminate].
    destruct (Py.truthy c) eqn:Hc; [| discriminate].
    inversion Hn; subst c. simpl.
    rewrite (IH Hall fuel ltac:(lia)).
    now rewrite filter_app.
Qed.

(** C8. When following the cursors from the first search produces a finite
    sequence of responses, the last of which supplies no cursor, the
    generator comes to its end (whatever the fuel, from the number of
    responses on) and has yielded, in order, exactly the pages of these
    responses that [is_untitled] classifies as untitled. *)
Theorem stream_untitled_pages_terminates (notion : Client)
  (responses : list pyval) :
  paginated notion VNone responses ->
  Forall classifiable responses ->
  forall fuel, length responses <= fuel ->
    stream_untitled_pages notion fuel
    = (filter untitled (flat_map pages_of responses), GenDone).
Proof. apply stream_from_paginated. Qed.

Lemma stream_untitled_pages_terminates_witness :
  stream_untitled_pages demo_search_client 2
  = ([demo_page_1; demo_page_3], GenDone).
Proof.
  apply (stream_untitled_pages_terminates demo_search_client
           [demo_response_1; demo_response_2]).
  - eapply paginated_next; [reflexivity | reflexivity |].
    apply paginated_last; reflexivity.
  - repeat constructor; eexists; reflexivity.
  - simpl. lia.
Defined.

(** ** Content text extraction *)

Lemma collect_spans_shaped (spans : list pyval) :
  forallb span_shaped spans = true ->
  forall acc,
    collect_spans spans acc = Ok (acc ++ map VStr (texts_of spans))%list.
Proof.
  induction spans as [| span rest IH]; simpl; intros H acc.
  - now rewrite app_nil_r.
  - apply andb_true_iff in H as [Hs Hrest].
    destruct span as [| | | | | | d]; try discriminate. simpl in Hs |- *.
    destruct (Py.lookup d "type") as [ty |]; [| discriminate]. simpl.
    destruct (Py.eq_str ty "text") eqn:Ety.
    + destruct (Py.lookup d "text") as [[| | | | | | t] |]; try discriminate.
      simpl.
      destruct (Py.lookup t "content") as [[| | | | s | |] |];
        try discriminate.
      simpl. rewrite (IH Hrest). now rewrite <- app_assoc.
    + destruct (Py.lookup d "text") as [[| | | | | | t] |]; simpl;
        now rewrite (IH Hrest).
Qed.

Lemma collect_blocks_shaped (blocks : list pyval) :
  forallb block_shaped blocks = true ->
  forall acc,
    collect_blocks blocks acc
    = Ok (acc ++ map VStr (qualifying_texts blocks))%list.
Proof.
  induction blocks as [| block rest IH]; simpl; intros H acc.
  - now rewrite app_nil_r.
  - apply andb_true_iff in H as [Hb Hrest].
    unfold rich_text_of, data_of, type_of.
    destruct block as [| | | | | | d]; try discriminate. simpl in Hb |- *.
    destruct (Py.lookup d "type") as [[| | | | ty | |] |]; try discriminate.
    simpl.
    match goal with |- context [if ?b then _ else _] => destruct b end.
    + simpl.
      destruct (Py.lookup d ty) as [[| | | | | | data] |]; try discriminate.
      simpl.
      destruct (Py.lookup data "rich_text") as [[| | | | | spans |] |];
        try discriminate; simpl.
      * rewrite (collect_spans_shaped _ Hb). simpl.
        rewrite (IH Hrest). now rewrite map_app, app_assoc.
      * now rewrite (IH Hrest).
    + now rewrite (IH Hrest).
Qed.

Lemma strings_VStr (l : list string) : Py.strings (map VStr l) = Ok l.
Proof. induction l as [| s l IH]; simpl; [| rewrite IH]; reflexivity. Qed.

(** C7. On the blocks the service sends, [get_page_content_text] returns
    the contents of the ["text"] spans of the paragraph and heading blocks,
    joined by single spaces and stripped; with no such span it returns the
    empty string. *)
Theorem get_page_content_text_joins (notion : Client) (page_id : pyval)
  (blocks : list pyval) :
  fetch_blocks notion page_id = Ok blocks ->
  forallb block_shaped blocks = true ->
  get_page_content_text notion page_id
  = Ok (Str.strip (Str.join " " (qualifying_texts blocks))) /\
  (qualifying_texts blocks = [] ->
   get_page_content_text notion page_id = Ok "").
Proof.
  intros Hf Hs.
  assert (H : get_page_content_text notion page_id
              = Ok (Str.strip (Str.join " " (qualifying_texts blocks)))).
  { unfold get_page_content_text. rewrite Hf. simpl.
    rewrite (collect_blocks_shaped _ Hs). simpl.
    unfold Py.join. now rewrite strings_VStr. }
  split; [exact H |]. intros Hq. now rewrite H, Hq.
Qed.

Lemma get_page_content_text_joins_witness :
  get_page_content_text (client_with_blocks meeting_blocks) (VStr "1f2e-3d4c")
  = Ok "Meeting notes"
  /\ get_page_content_text (client_with_blocks [divider]) (VStr "1f2e-3d4c")
     = Ok "".
Proof.
  split.
  - apply (get_page_content_text_joins (client_with_blocks meeting_blocks)
             (VStr "1f2e-3d4c") meeting_blocks); reflexivity.
  - apply (get_page_content_text_joins (client_with_blocks [divider])
             (VStr "1f2e-3d4c") [divider]); reflexivity.
Defined.

(** ** Emptiness check *)

Lemma scan_rich_text_shaped (spans : list pyval) :
  forallb span_shaped spans = true ->
  scan_rich_text spans
  = Ok (if existsb (fun s => negb (String.eqb (Str.strip s) ""))
                   (texts_of spans)
        then Some false else None).
Proof.
  induction spans as [| span rest IH]; simpl; intros H; [reflexivity |].
  apply andb_true_iff in H as [Hs Hrest]. specialize (IH Hrest).
  destruct span as [| | | | | | d]; try discriminate. simpl in Hs |- *.
  destruct (Py.lookup d "type") as [ty |]; [| discriminate]. simpl.
  destruct (Py.eq_str ty "text") eqn:Ety.
  - destruct (Py.lookup d "text") as [[| | | | | | t] |]; try discriminate.
    simpl.
    destruct (Py.lookup t "content") as [[| | | | s | |] |];
      try discriminate.
    simpl. destruct (String.eqb (Str.strip s) ""); simpl; auto.
  - destruct (Py.lookup d "text") as [[| | | | | | t] |]; simpl; exact IH.
Qed.

Lemma in_strs_VStr (ty : string) (l : list string) :
  Py.in_strs (VStr ty) l = existsb (String.eqb ty) l.
Proof. reflexivity. Qed.

(** No always-visible type is one of the five of the second branch. *)
Lemma visible_not_duplicated (block : pyval) :
  always_visible block = true -> duplicated block = false.
Proof.
  unfold always_visible, duplicated. rewrite existsb_exists.
  intros (ty & Hin & Heq). apply String.eqb_eq in Heq. rewrite Heq.
  simpl in Hin.
  repeat (destruct Hin as [<- | Hin]; [reflexivity |]). destruct Hin.
Qed.

Lemma in_strs_duplicated_not_visible (v : pyval) :
  Py.in_strs v duplicated_types = true ->
  Py.in_strs v always_visible_types = false.
Proof.
  unfold Py.in_strs. rewrite existsb_exists.
  intros (ty & Hin & Heq). destruct v as [| | | | s | |]; try discriminate.
  apply String.eqb_eq in Heq. rewrite Heq. simpl in Hin.
  repeat (destruct Hin as [<- | Hin]; [reflexivity |]). destruct Hin.
Qed.

(** The type lists stay folded while the branches are compared. *)
Opaque Py.in_strs duplicated_types always_visible_types.

Lemma is_empty_blocks_shaped (blocks : list pyval) :
  forallb block_shaped blocks = true ->
  is_empty_blocks blocks = Ok (forallb passes blocks).
Proof.
  induction blocks as [| block rest IH]; simpl; intros H; [reflexivity |].
  apply andb_true_iff in H as [Hb Hrest]. specialize (IH Hrest).
  unfold passes at 1.
  unfold has_rich_text, nonblank_text, duplicated, always_visible, no_data,
    rich_text_of, data_of, type_of.
  destruct block as [| | | | | | d]; try discriminate. simpl in Hb |- *.
  destruct (Py.lookup d "type") as [[| | | | ty | |] |]; try discriminate.
  simpl.
  destruct (Py.lookup d ty) as [[| | | | | | data] |]; try discriminate.
  simpl.
  destruct (Py.lookup data "rich_text") as [[| | | | | spans |] |];
    try discriminate; simpl.
  - rewrite (scan_rich_text_shaped _ Hb). simpl.
    destruct (existsb _ (texts_of spans)); simpl; auto.
  - rewrite !in_strs_VStr.
    destruct (existsb (String.eqb ty) duplicated_types); simpl; auto.
    destruct (existsb (String.eqb ty) always_visible_types); simpl; auto.
    destruct data; simpl; auto.
Qed.

Lemma no_data_iff (block : pyval) : no_data block = true <-> data_of block = [].
Proof.
  unfold no_data. destruct (data_of block); split; auto; discriminate.
Qed.

Lemma is_empty_shaped (notion : Client) (page_id : pyval)
  (blocks : list pyval) :
  fetch_blocks notion page_id = Ok blocks ->
  forallb block_shaped blocks = true ->
  is_empty notion page_id = Ok (forallb passes blocks).
Proof.
  intros Hf Hs. unfold is_empty. rewrite Hf. simpl.
  now apply is_empty_blocks_shaped.
Qed.

Lemma all_empty_not_nonblank (l : list string) :
  Forall (fun s => s = "") l ->
  existsb (fun s => negb (String.eqb (Str.strip s) "")) l = false.
Proof.
  induction 1 as [| s l Hs Hl IH]; [reflexivity |].
  simpl. subst s. exact IH.
Qed.

Lemma forallb_ext_In {A : Type} (f g : A -> bool) (l : list A) :
  (forall x, In x l -> f x = g x) -> forallb f l = forallb g l.
Proof.
  induction l as [| x l IH]; intros H; [reflexivity |].
  simpl. rewrite (H x (or_introl eq_refl)). f_equal.
  apply IH. intros y Hy. apply H. now right.
Qed.

Lemma no_rich_text_no_text (block : pyval) :
  has_rich_text block = false -> nonblank_text block = false.
Proof.
  unfold has_rich_text, nonblank_text.
  now destruct (rich_text_of block).
Qed.

Lemma passes_designed (block : pyval) :
  visible_with_rich_text block = false ->
  passes block = true <->
  nonblank_text block = false /\
  always_visible block = false /\
  (has_rich_text block = false -> duplicated block = false ->
   data_of block = []).
Proof.
  unfold visible_with_rich_text, passes. rewrite <- no_data_iff.
  pose proof (visible_not_duplicated block) as Hdis.
  pose proof (no_rich_text_no_text block) as Hnb.
  destruct (has_rich_text block), (nonblank_text block), (duplicated block),
    (always_visible block), (no_data block); simpl in *;
    intuition (auto; discriminate).
Qed.

(** C2, amended.  On a page whose blocks are those the service sends (none
    of an always-visible type holds a rich-text list), [is_empty] returns
    [True] exactly when no top-level block carries non-blank text in a
    ["text"] span of its rich-text list, none has an always-visible type,
    and none but a to_do, callout, toggle, quote or code block carries
    non-empty data without a rich-text list: a block of these five types
    without a rich-text list is stepped over whatever its data holds.  In
    particular a block of another type, without rich-text list and with
    non-empty data, makes the page not empty, as does a block of an
    always-visible type; and a page whose blocks hold only empty-string text
    spans, or neither an always-visible type nor data, is empty.  The
    specification's wording is exact on the pages where no block of the five
    types has data without a rich-text list. *)
Theorem is_empty_iff_every_block_passes (notion : Client) (page_id : pyval)
  (blocks : list pyval) :
  fetch_blocks notion page_id = Ok blocks ->
  forallb block_shaped blocks = true ->
  forallb (fun block => negb (visible_with_rich_text block)) blocks = true ->
  (is_empty notion page_id = Ok true <->
   forall block, In block blocks ->
     nonblank_text block = false /\
     always_visible block = false /\
     (has_rich_text block = false -> duplicated block = false ->
      data_of block = [])) /\
  (is_empty notion page_id = Ok true \/ is_empty notion page_id = Ok false) /\
  (forall block,
      In block blocks -> has_rich_text block = false ->
      duplicated block = false -> data_of block <> [] ->
      is_empty notion page_id = Ok false) /\
  (forall block,
      In block blocks -> always_visible block = true ->
      is_empty notion page_id = Ok false) /\
  ((forall block,
       In block blocks ->
       match rich_text_of block with
       | Some spans => Forall (fun s => s = "") (texts_of spans)
       | None => always_visible block = false /\ data_of block = []
       end) ->
   is_empty notion page_id = Ok true) /\
  ((forall block,
       In block blocks ->
       duplicated block = true -> has_rich_text block = false ->
       data_of block = []) ->
   is_empty notion page_id = Ok (specified_empty blocks)).
Proof.
  intros Hf Hs Hv. rewrite (is_empty_shaped _ _ _ Hf Hs).
  rewrite forallb_forall in Hv.
  assert (Hsent : forall block,
             In block blocks -> visible_with_rich_text block = false).
  { intros block Hin. apply negb_true_iff. now apply Hv. }
  assert (Hfail : forall block,
             In block blocks -> passes block = false ->
             Ok (forallb passes blocks) = Ok false).
  { intros block Hin Hp. f_equal.
    destruct (forallb passes blocks) eqn:E; [| reflexivity].
    rewrite forallb_forall in E. now rewrite (E _ Hin) in Hp. }
  split; [| split; [| split; [| split; [| split]]]].
  - split.
    + intros H block Hin. apply (passes_designed block (Hsent block Hin)).
      inversion H as [Hall]. rewrite Hall.
      rewrite forallb_forall in Hall. now apply Hall.
    + intros H. f_equal. apply forallb_forall. intros block Hin.
      apply (passes_designed block (Hsent block Hin)). now apply H.
  - destruct (forallb passes blocks); auto.
  - intros block Hin Hrt Hdup Hdata. apply (Hfail block Hin).
    unfold passes. rewrite Hrt, Hdup.
    destruct (no_data block) eqn:E; [| now rewrite andb_false_r].
    apply no_data_iff in E. contradiction.
  - intros block Hin Hav. apply (Hfail block Hin).
    pose proof (Hsent block Hin) as Hrt. unfold visible_with_rich_text in Hrt.
    rewrite Hav in Hrt. cbn [andb] in Hrt.
    unfold passes. now rewrite Hrt, Hav, (visible_not_duplicated _ Hav).
  - intros H. f_equal. apply forallb_forall. intros block Hin.
    specialize (H block Hin). unfold passes, has_rich_text, nonblank_text.
    destruct (rich_text_of block) as [spans |].
    + now rewrite all_empty_not_nonblank.
    + destruct H as [Hav Hd]. rewrite Hav. apply no_data_iff in Hd.
      rewrite Hd. now destruct (duplicated block).
  - intros H. f_equal. unfold specified_empty. apply forallb_ext_In.
    intros block Hin. pose proof (H block Hin) as Hdup.
    pose proof (Hsent block Hin) as Hav.
    unfold visible_with_rich_text in Hav.
    unfold passes. rewrite <- no_data_iff in Hdup.
    pose proof (visible_not_duplicated block) as Hdis.
    pose proof (no_rich_text_no_text block) as Hnb.
    destruct (has_rich_text block), (nonblank_text block),
      (duplicated block), (always_visible block), (no_data block);
      simpl in *; auto;
      try (now discriminate Hav); try (now discriminate Hdup);
      try (now discriminate Hdis); try (now discriminate Hnb).
Qed.

(** ** The second branch of the emptiness check *)

(** The inner scan of the second branch is never run: the branch is only
    reached when the data holds no ["rich_text"]. *)
Lemma is_empty_blocks_noscan_eq (blocks : list pyval) :
  is_empty_blocks_noscan blocks = is_empty_blocks blocks.
Proof.
  induction blocks as [| block rest IH]; [reflexivity |].
  cbn [is_empty_blocks_noscan is_empty_blocks]. rewrite IH.
  destruct (Py.get block (VStr "type") VNone) as [bt | e]; [| reflexivity].
  cbn [bind].
  destruct (Py.get block bt (VDict [])) as [bd | e]; [| reflexivity].
  cbn [bind].
  destruct (Py.contains_str "rich_text" bd) as [[|] | e] eqn:Hc;
    cbn [bind]; reflexivity.
Qed.

Lemma is_empty_blocks_collapsed_eq (blocks : list pyval) :
  forallb (fun block => negb (shielded block)) blocks = true ->
  is_empty_blocks_collapsed blocks = is_empty_blocks blocks.
Proof.
  induction blocks as [| block rest IH]; [reflexivity |].
  cbn [forallb]. intros H. apply andb_true_iff in H as [Hb Hrest].
  specialize (IH Hrest). apply negb_true_iff in Hb. unfold shielded in Hb.
  cbn [is_empty_blocks_collapsed is_empty_blocks]. rewrite IH.
  destruct (Py.get block (VStr "type") VNone) as [bt | e]; [| reflexivity].
  cbn [bind] in Hb |- *.
  destruct (Py.get block bt (VDict [])) as [bd | e]; [| reflexivity].
  cbn [bind] in Hb |- *.
  destruct (Py.contains_str "rich_text" bd) as [[|] | e] eqn:Hc;
    cbn [bind] in Hb |- *; try reflexivity.
  cbn [bind negb andb] in Hb |- *.
  destruct (Py.in_strs bt duplicated_types) eqn:Hdup; [| reflexivity].
  rewrite (in_strs_duplicated_not_visible _ Hdup).
  cbn [andb] in Hb. now rewrite Hb.
Qed.

(** What the second branch does for a block only it catches: [is_empty]
    steps over the block, and without the branch the catch-all answers. *)
Lemma shielded_block_decides (block : pyval) (rest : list pyval) :
  shielded block = true ->
  is_empty_blocks (block :: rest) = is_empty_blocks rest /\
  is_empty_blocks_collapsed (block :: rest) = Ok false.
Proof.
  unfold shielded. cbn [is_empty_blocks is_empty_blocks_collapsed].
  destruct (Py.get block (VStr "type") VNone) as [bt | e]; [| discriminate].
  cbn [bind].
  destruct (Py.get block bt (VDict [])) as [bd | e]; [| discriminate].
  cbn [bind].
  destruct (Py.contains_str "rich_text" bd) as [[|] | e] eqn:Hc;
    cbn [bind negb andb]; try discriminate.
  destruct (Py.in_strs bt duplicated_types) eqn:Hdup; [| discriminate].
  rewrite (in_strs_duplicated_not_visible _ Hdup). cbn [andb].
  intros Ht. rewrite Ht. cbn [bind]. split; reflexivity.
Qed.

(** C4, amended.  The emptiness check without the second branch agrees
    with [is_empty] on every page none of whose blocks is of type to_do,
    callout, toggle, quote or code with non-empty data and no ["rich_text"]
    in it.  Only the inner scan of that branch is dead: removing it alone
    changes nothing on any block list.  The branch itself is not: a block it
    alone catches is stepped over by [is_empty], and answered [False] by the
    catch-all once the branch is gone. *)
Theorem is_empty_collapsed_agrees (notion : Client) (page_id : pyval)
  (blocks : list pyval) :
  (fetch_blocks notion page_id = Ok blocks ->
   forallb (fun block => negb (shielded block)) blocks = true ->
   is_empty_collapsed notion page_id = is_empty notion page_id) /\
  is_empty_blocks_noscan blocks = is_empty_blocks blocks /\
  (forall block rest,
      shielded block = true ->
      is_empty_blocks (block :: rest) = is_empty_blocks rest /\
      is_empty_blocks_collapsed (block :: rest) = Ok false).
Proof.
  split; [| split].
  - intros Hf Hs. unfold is_empty_collapsed, is_empty. rewrite Hf.
    cbn [bind]. now apply is_empty_blocks_collapsed_eq.
  - apply is_empty_blocks_noscan_eq.
  - intros block rest. apply shielded_block_decides.
Qed.

Transparent Py.in_strs duplicated_types always_visible_types.

(** C2 as stated fails: a page whose only block is a to_do with non-empty
    data and no rich-text list is classified empty, although the block
    carries non-empty type-specific data. *)
Lemma is_empty_not_as_specified :
  is_empty (client_with_blocks [to_do_unchecked]) a_page_id = Ok true /\
  specified_empty [to_do_unchecked] = false /\
  data_of to_do_unchecked = [("checked", VBool false)].
Proof. repeat split; reflexivity. Qed.

Lemma is_empty_iff_every_block_passes_witness :
  is_empty (client_with_blocks blank_blocks) a_page_id = Ok true /\
  is_empty (client_with_blocks [image_block]) a_page_id = Ok false /\
  is_empty (client_with_blocks [to_do_unchecked; divider]) a_page_id = Ok true.
Proof.
  split; [| split].
  - pose proof (is_empty_iff_every_block_passes
                  (client_with_blocks blank_blocks) a_page_id blank_blocks
                  eq_refl eq_refl eq_refl) as (_ & _ & _ & _ & H & _).
    apply H. intros block Hin. simpl in Hin.
    repeat (destruct Hin as [<- | Hin];
            [simpl; repeat constructor |]).
    destruct Hin.
  - pose proof (is_empty_iff_every_block_passes
                  (client_with_blocks [image_block]) a_page_id [image_block]
                  eq_refl eq_refl eq_refl) as (_ & _ & _ & H & _).
    apply (H image_block); [now left | reflexivity].
  - pose proof (is_empty_iff_every_block_passes
                  (client_with_blocks [to_do_unchecked; divider]) a_page_id
                  [to_do_unchecked; divider]
                  eq_refl eq_refl eq_refl) as (H & _).
    apply H. intros block Hin. simpl in Hin.
    repeat (destruct Hin as [<- | Hin];
            [repeat split; try reflexivity; discriminate |]).
    destruct Hin.
Defined.

(** C4 as stated fails: without the second branch, a to_do block with
    non-empty data and no rich-text list reaches the catch-all. *)
Lemma is_empty_collapsed_differs :
  is_empty (client_with_blocks [to_do_unchecked]) a_page_id = Ok true /\
  is_empty_collapsed (client_with_blocks [to_do_unchecked]) a_page_id
  = Ok false.
Proof. split; reflexivity. Qed.

Lemma is_empty_collapsed_agrees_witness :
  is_empty_collapsed (client_with_blocks meeting_blocks) a_page_id
  = is_empty (client_with_blocks meeting_blocks) a_page_id /\
  is_empty_blocks_noscan [to_do_unchecked] = is_empty_blocks [to_do_unchecked].
Proof.
  split.
  - apply (proj1 (is_empty_collapsed_agrees
                    (client_with_blocks meeting_blocks) a_page_id
                    meeting_blocks)); reflexivity.
  - apply (proj1 (proj2 (is_empty_collapsed_agrees
                           (client_with_blocks [to_do_unchecked]) a_page_id
                           [to_do_unchecked]))).
Defined.

(** ** Text extraction and emptiness on the same blocks *)

Lemma getitem_str_inv (v : pyval) (k : string) (x : pyval) :
  Py.getitem v (VStr k) = Ok x ->
  exists d, v = VDict d /\ Py.lookup d k = Some x.
Proof.
  destruct v as [| | | | s | l | d]; simpl; try discriminate.
  intros H. exists d. split; [reflexivity |].
  destruct (Py.lookup d k); [now inversion H | discriminate].
Qed.

Lemma getitem_get (v : pyval) (k : string) (x dflt : pyval) :
  Py.getitem v (VStr k) = Ok x -> Py.get v (VStr k) dflt = Ok x.
Proof.
  intros H. apply getitem_str_inv in H as (d & -> & Hd). simpl.
  now rewrite Hd.
Qed.

Lemma in_strs_true_VStr (v : pyval) (l : list string) :
  Py.in_strs v l = true -> exists s, v = VStr s.
Proof.
  unfold Py.in_strs. rewrite existsb_exists. intros (x & _ & H).
  destruct v; try discriminate. eauto.
Qed.

Lemma scan_rich_text_Some (spans : list pyval) (b : bool) :
  scan_rich_text spans = Ok (Some b) -> b = false.
Proof.
  induction spans as [| rt rest IH]; cbn [scan_rich_text]; [discriminate |].
  intros H. apply bind_Ok in H as (ty & _ & H).
  destruct (Py.eq_str ty "text"); [| auto].
  apply bind_Ok in H as (text & _ & H).
  apply bind_Ok in H as (c & _ & H).
  apply bind_Ok in H as (content & _ & H).
  destruct (Py.truthy (VStr content)); [now inversion H | auto].
Qed.

Lemma scan_rich_text_dup_Some (spans : list pyval) (b : bool) :
  scan_rich_text_dup spans = Ok (Some b) -> b = false.
Proof.
  induction spans as [| rt rest IH]; cbn [scan_rich_text_dup];
    [discriminate |].
  intros H. apply bind_Ok in H as (ty & _ & H).
  apply bind_Ok in H as (cond & _ & H).
  destruct cond; [now inversion H | auto].
Qed.

(** [is_empty] returns [True] only after the whole loop: if it does on a
    block list, it does on the tail. *)
Lemma is_empty_blocks_tail (block : pyval) (rest : list pyval) :
  is_empty_blocks (block :: rest) = Ok true -> is_empty_blocks rest = Ok true.
Proof.
  cbn [is_empty_blocks]. intros H.
  apply bind_Ok in H as (bt & _ & H).
  apply bind_Ok in H as (bd & _ & H).
  apply bind_Ok in H as (has & _ & H).
  destruct has.
  - apply bind_Ok in H as (rt & _ & H).
    apply bind_Ok in H as (spans & _ & H).
    apply bind_Ok in H as (found & Hscan & H).
    destruct found as [b |]; [| exact H].
    inversion H; subst b. now apply scan_rich_text_Some in Hscan.
  - destruct (Py.in_strs bt duplicated_types).
    + apply bind_Ok in H as (has' & _ & H).
      destruct has'; [| exact H].
      apply bind_Ok in H as (rt & _ & H).
      apply bind_Ok in H as (spans & _ & H).
      apply bind_Ok in H as (found & Hscan & H).
      destruct found as [b |]; [| exact H].
      inversion H; subst b. now apply scan_rich_text_dup_Some in Hscan.
    + destruct (Py.in_strs bt always_visible_types); [discriminate |].
      destruct (Py.truthy bd); [discriminate | exact H].
Qed.

Lemma collect_spans_blank (spans : list pyval) :
  forall acc acc',
    collect_spans spans acc = Ok acc' ->
    scan_rich_text spans = Ok None ->
    exists new, acc' = (acc ++ map VStr new)%list /\ Forall blank new.
Proof.
  induction spans as [| t rest IH]; cbn [collect_spans scan_rich_text];
    intros acc acc' Hc Hs.
  - inversion Hc; subst. exists []. split; [now rewrite app_nil_r | constructor].
  - apply bind_Ok in Hc as (ty & Hty & Hc).
    rewrite (getitem_get _ _ _ VNone Hty) in Hs. cbn [bind] in Hs.
    destruct (Py.eq_str ty "text"); [| now apply (IH acc)].
    apply bind_Ok in Hc as (text & Htext & Hc).
    apply bind_Ok in Hc as (content & Hcontent & Hc).
    rewrite Htext in Hs. cbn [bind] in Hs. rewrite Hcontent in Hs.
    cbn [bind] in Hs.
    destruct content as [| | | | s | |]; try discriminate.
    cbn [Py.strip bind Py.truthy] in Hs.
    destruct (String.eqb (Str.strip s) "") eqn:E; [| discriminate].
    cbn [negb] in Hs. apply String.eqb_eq in E. apply strip_empty_iff in E.
    destruct (IH _ _ Hc Hs) as (new & -> & Hnew).
    exists (s :: new). split; [now rewrite <- app_assoc | now constructor].
Qed.

Lemma collect_blocks_blank (blocks : list pyval) :
  forall acc acc',
    collect_blocks blocks acc = Ok acc' ->
    is_empty_blocks blocks = Ok true ->
    exists new, acc' = (acc ++ map VStr new)%list /\ Forall blank new.
Proof.
  induction blocks as [| block rest IH]; intros acc acc' Hc He.
  - inversion Hc; subst. exists []. split; [now rewrite app_nil_r | constructor].
  - pose proof (is_empty_blocks_tail _ _ He) as Hrest.
    cbn [collect_blocks] in Hc. cbn [is_empty_blocks] in He.
    apply bind_Ok in Hc as (bt & Hbt & Hc).
    destruct (Py.in_strs bt text_block_types) eqn:Hin;
      [| now apply (IH acc)].
    apply in_strs_true_VStr in Hin as (ty & ->).
    apply bind_Ok in Hc as (bd & Hbd & Hc).
    apply bind_Ok in Hc as (rt & Hrt & Hc).
    apply bind_Ok in Hc as (spans & Hspans & Hc).
    apply bind_Ok in Hc as (acc1 & Hacc1 & Hc).
    rewrite (getitem_get _ _ _ VNone Hbt) in He. cbn [bind] in He.
    rewrite (getitem_get _ _ _ (VDict []) Hbd) in He. cbn [bind] in He.
    destruct bd as [| | | | | | dd]; try discriminate.
    cbn [Py.get Py.hashable Py.contains_str bind] in Hrt, He.
    destruct (Py.lookup dd "rich_text") as [x |] eqn:Hx.
    + inversion Hrt; subst x. cbn [Py.getitem Py.hashable] in He.
      rewrite Hx in He. cbn [bind] in He. rewrite Hspans in He.
      cbn [bind] in He.
      destruct (scan_rich_text spans) as [[b |] | e] eqn:Hscan;
        cbn [bind] in He; try discriminate.
      { inversion He; subst b. now apply scan_rich_text_Some in Hscan. }
      destruct (collect_spans_blank _ _ _ Hacc1 Hscan) as (new1 & -> & H1).
      destruct (IH _ _ Hc Hrest) as (new2 & -> & H2).
      exists (new1 ++ new2)%list.
      split; [now rewrite map_app, app_assoc | now apply Forall_app].
    + inversion Hrt; subst rt. inversion Hspans; subst spans.
      inversion Hacc1; subst acc1. now apply (IH acc).
Qed.

(** When both return, extracted text and emptiness do not disagree: a page
    that [is_empty] classifies as empty has no extracted text. *)
Lemma empty_page_has_no_text (notion : Client) (page_id : pyval)
  (raw_text : string) :
  get_page_content_text notion page_id = Ok raw_text ->
  is_empty notion page_id = Ok true ->
  raw_text = "".
Proof.
  unfold get_page_content_text, is_empty. intros Ht He.
  apply bind_Ok in Ht as (blocks & Hf & Ht). rewrite Hf in He.
  cbn [bind] in He.
  apply bind_Ok in Ht as (tc & Htc & Ht).
  destruct (collect_blocks_blank _ _ _ Htc He) as (new & -> & Hnew).
  unfold Py.join in Ht. cbn [app] in Ht. rewrite strings_VStr in Ht.
  cbn [bind] in Ht. inversion Ht; subst.
  apply strip_empty_iff. now apply blank_join.
Qed.

(** ** Action dispatch *)

Lemma suggest_title_llm_Ok (post : Requests) (text model : string)
  (response : Response) (w : world) :
  post generate_url (generate_body text model) = Ok response ->
  suggest_title_llm post text model w
  = (Ok (title_of_answer response),
     {| stdin := stdin w;
        trace := (trace w
                  ++ [Post generate_url (generate_body text model)])%list |}).
Proof.
  intros H. unfold suggest_title_llm, mbind, emit, lift, title_of_answer.
  cbn [stdin trace]. rewrite H.
  destruct (data <- json response ;;
            answer <- Py.getitem data (VStr "response") ;;
            Py.strip answer); reflexivity.
Qed.

(** C9. For a page that [is_empty] classifies as empty, with
    [confirm_delete] set, an answer to the deletion prompt that is not
    [yes] (after stripping and lowering) ends the iteration: the step emits
    the notice and the prompt and nothing else (no delete call, no
    suggestion, no title prompt, no update), and the loop goes on with the
    next page. *)
Theorem declined_deletion_continues (env : Env) (args : Argparse.Namespace)
  (idx : nat) (page edited : pyval) (pid raw_text answer : string)
  (lines : list string) (tr : list event) (pages : list pyval) :
  Argparse.getattr args "confirm_delete" = Ok true ->
  Py.getitem page (VStr "id") = Ok (VStr pid) ->
  (t <- Py.getitem page (VStr "last_edited_time") ;; Py.slice_to 10 t)
  = Ok edited ->
  get_page_content_text (notion env) (VStr pid) = Ok raw_text ->
  is_empty (notion env) (VStr pid) = Ok true ->
  Str.lower (Str.strip answer) <> "yes" ->
  let w := {| stdin := answer :: lines; trace := tr |} in
  let w' := {| stdin := lines;
               trace := (tr ++ [Print (empty_notice idx pid);
                                Prompt delete_prompt])%list |} in
  process_page env args idx page w = (Ok tt, w') /\
  main_loop env args idx (page :: pages) w
  = main_loop env args (S idx) pages w'.
Proof.
  intros Hcd Hid Hed Htext Hemp Hans w w'.
  assert (Hraw : raw_text = "") by (eapply empty_page_has_no_text; eauto).
  subst raw_text.
  assert (Hstep : process_page env args idx page w = (Ok tt, w')).
  { unfold process_page, mbind, lift, ret. rewrite Hid, Hed.
    cbn [format_notion_url Py.replace bind]. rewrite Htext, Hemp, Hcd.
    cbn [Py.truthy String.eqb negb]. unfold emit, input, w, w'.
    cbn [stdin trace].
    destruct (String.eqb (Str.lower (Str.strip answer)) "yes") eqn:E.
    - apply String.eqb_eq in E. contradiction.
    - unfold empty_notice. now rewrite <- app_assoc. }
  split; [exact Hstep |].
  cbn [main_loop]. unfold mbind at 1. now rewrite Hstep.
Qed.

Lemma declined_deletion_continues_witness :
  process_page {| notion := client_with_blocks blank_blocks;
                  post := silent_post |}
               cautious_args 1 demo_page_1
               {| stdin := ["No "]; trace := [] |}
  = (Ok tt,
     {| stdin := [];
        trace := [Print (empty_notice 1 "1f2e-3d4c");
                  Prompt delete_prompt] |}).
Proof.
  refine (proj1 (declined_deletion_continues
                   {| notion := client_with_blocks blank_blocks;
                      post := silent_post |}
                   cautious_args 1 demo_page_1 (VStr "2024-05-01")
                   "1f2e-3d4c" "" "No " [] [] []
                   _ _ _ _ _ _)); try reflexivity.
  vm_compute. discriminate.
Defined.

(** C10, amended.  For a page with non-empty extracted text, processed
    with [--auto-apply] set, when the endpoint answers and the emptiness
    check returns: one suggestion request is made, no prompt is shown and
    nothing is deleted; one title-update call is issued, carrying the
    suggestion as the page's title property, when the suggestion is not the
    empty string, and none when it is. *)
Theorem auto_apply_updates_once (env : Env) (args : Argparse.Namespace)
  (idx : nat) (page edited : pyval) (pid raw_text : string)
  (response : Response) (b : bool) (w : world) :
  Argparse.getattr args "auto_apply" = Ok true ->
  Py.getitem page (VStr "id") = Ok (VStr pid) ->
  (t <- Py.getitem page (VStr "last_edited_time") ;; Py.slice_to 10 t)
  = Ok edited ->
  get_page_content_text (notion env) (VStr pid) = Ok raw_text ->
  raw_text <> "" ->
  post env generate_url (generate_body raw_text default_model)
  = Ok response ->
  is_empty (notion env) (VStr pid) = Ok b ->
  let title := title_of_answer response in
  let evs := auto_apply_events env idx pid raw_text title in
  let w' := snd (process_page env args idx page w) in
  trace w' = (trace w ++ evs)%list /\
  stdin w' = stdin w /\
  filter is_post evs
  = [Post generate_url (generate_body raw_text default_model)] /\
  filter is_update evs
  = (if String.eqb title "" then []
     else [Update (VStr pid) (title_properties title)]) /\
  filter is_prompt evs = [] /\
  filter is_delete evs = [].
Proof.
  intros Hauto Hid Hed Htext Hraw Hpost Hemp title evs w'.
  assert (Hb : b = false).
  { destruct b; [| reflexivity]. exfalso. apply Hraw.
    eapply empty_page_has_no_text; eauto. }
  subst b.
  assert (Htruthy : Py.truthy (VStr raw_text) = true).
  { cbn [Py.truthy]. destruct (String.eqb raw_text "") eqn:E; [| reflexivity].
    apply String.eqb_eq in E. contradiction. }
  split; [| split].
  - unfold w', process_page, mbind, lift, ret. rewrite Hid, Hed.
    cbn [format_notion_url Py.replace bind]. rewrite Htext, Htruthy.
    rewrite (suggest_title_llm_Ok _ _ _ _ _ Hpost). rewrite Hemp.
    fold title. unfold evs, auto_apply_events. fold title.
    cbn [Py.truthy]. destruct (String.eqb title "") eqn:E; cbn [negb].
    + reflexivity.
    + unfold emit. cbn [stdin trace]. rewrite Hauto.
      unfold apply_title, mbind, emit, lift. cbn [stdin trace].
      unfold suggestion_line, open_line.
      destruct (pages_update (notion env) (VStr pid) (title_properties title));
        cbn [snd trace]; rewrite <- !app_assoc; reflexivity.
  - unfold w', process_page, mbind, lift, ret. rewrite Hid, Hed.
    cbn [format_notion_url Py.replace bind]. rewrite Htext, Htruthy.
    rewrite (suggest_title_llm_Ok _ _ _ _ _ Hpost). rewrite Hemp.
    fold title. cbn [Py.truthy].
    destruct (String.eqb title "") eqn:E; cbn [negb].
    + reflexivity.
    + unfold emit. cbn [stdin trace]. rewrite Hauto.
      unfold apply_title, mbind, emit, lift. cbn [stdin trace].
      destruct (pages_update (notion env) (VStr pid) (title_properties title));
        reflexivity.
  - unfold evs, auto_apply_events.
    destruct (String.eqb title "");
      [repeat split; reflexivity |].
    destruct (pages_update (notion env) (VStr pid) (title_properties title));
      repeat split; reflexivity.
Qed.

(** C10 as stated fails: the page has the text ["Meeting notes"] and
    [--auto-apply] is set, but the endpoint answers with blanks, the
    suggestion is the empty string, and no title-update call is issued. *)
Lemma auto_apply_without_update :
  Argparse.parse_args parser ["--auto-apply"] = Some eager_args /\
  get_page_content_text (client_with_blocks meeting_blocks) a_page_id
  = Ok "Meeting notes" /\
  process_page {| notion := client_with_blocks meeting_blocks;
                  post := silent_post |}
               eager_args 1 demo_page_1 {| stdin := []; trace := [] |}
  = (Ok tt,
     {| stdin := [];
        trace := [Post generate_url
                       (generate_body "Meeting notes" default_model)] |}).
Proof. repeat split; reflexivity. Qed.

Lemma auto_apply_updates_once_witness :
  trace (snd (process_page {| notion := client_with_blocks meeting_blocks;
                              post := helpful_post |}
                           eager_args 1 demo_page_1
                           {| stdin := []; trace := [] |}))
  = [Post generate_url (generate_body "Meeting notes" default_model);
     Print (suggestion_line 1 "Weekly sync");
     Print (open_line "1f2e-3d4c");
     Update (VStr "1f2e-3d4c") (title_properties "Weekly sync");
     Print ("Title applied." ++ Str.nl)].
Proof.
  refine (proj1 (auto_apply_updates_once
                   {| notion := client_with_blocks meeting_blocks;
                      post := helpful_post |}
                   eager_args 1 demo_page_1 (VStr "2024-05-01")
                   "1f2e-3d4c" "Meeting notes"
                   {| json := Ok (VDict [("model", VStr "gemma:2b-instruct");
                                         ("response", VStr " Weekly sync ");
                                         ("done", VBool true)]) |}
                   false {| stdin := []; trace := [] |}
                   _ _ _ _ _ _ _)); try reflexivity.
  discriminate.
Defined.

(** ** A whole run *)

(** Two untitled pages with text, the first title applied on [yes], the
    second declined. *)
Example main_demo :
  option_map (fun r => (fst r, stdin (snd r), length (trace (snd r))))
             (main demo_env [] 2 {| stdin := ["yes"; "no"]; trace := [] |})
  = Some (Ok tt, [], 12).
Proof. vm_compute. reflexivity. Qed.

Example main_help :
  main demo_env ["--help"] 2 {| stdin := []; trace := [] |} = None.
Proof. reflexivity. Qed.

(** * Further properties

    What the script does besides the behaviour stated above: its safety
    conditions, its error paths and how its functions relate. *)

(** ** One page of the loop *)

(** One case of the next decision of [process_page], in program order. *)
Ltac step_case :=
  match goal with
  | |- context [Py.getitem ?p (VStr "id")] =>
      destruct (Py.getitem p (VStr "id")) eqn:?
  | |- context [bind (Py.getitem ?p (VStr "last_edited_time")) ?k] =>
      destruct (bind (Py.getitem p (VStr "last_edited_time")) k) eqn:?
  | |- context [format_notion_url ?x] =>
      destruct (format_notion_url x) eqn:?
  | |- context [get_page_content_text ?n ?x] =>
      destruct (get_page_content_text n x) eqn:?
  | |- context [post ?e ?u ?b] => destruct (post e u b) eqn:?
  | |- context [bind (json ?r) ?k] => destruct (bind (json r) k) eqn:?
  | |- context [is_empty ?n ?x] => destruct (is_empty n x) as [[|] |] eqn:?
  | |- context [Argparse.getattr ?a "confirm_delete"] =>
      destruct (Argparse.getattr a "confirm_delete") as [[|] |] eqn:?
  | |- context [Argparse.getattr ?a "auto_apply"] =>
      destruct (Argparse.getattr a "auto_apply") as [[|] |] eqn:?
  | |- context [match stdin ?w with [] => _ | _ :: _ => _ end] =>
      destruct (stdin w) eqn:?
  | |- context [String.eqb ?a "yes"] => destruct (String.eqb a "yes") eqn:?
  | |- context [blocks_delete ?n ?x] => destruct (blocks_delete n x) eqn:?
  | |- context [pages_update ?n ?x ?y] => destruct (pages_update n x y) eqn:?
  | |- context [Py.truthy (VStr ?s)] => destruct (Py.truthy (VStr s)) eqn:?
  end.

(** Every path through [process_page], each with the world it ends in. *)
Ltac step_cases :=
  unfold process_page, apply_title, suggest_title_llm, mbind, lift, ret, emit,
    input;
  cbn [fst snd stdin trace];
  repeat (step_case; cbn [fst snd stdin trace]).





(** A delete call is only issued for the page at hand, when [is_empty]
    returned [True] for it, [confirm_delete] is set, and the line read at
    the prompt is [yes] once stripped and lowered. *)
Theorem delete_only_after_yes (env : Env) (args : Argparse.Namespace)
  (idx : nat) (page : pyval) (w : world) (b : pyval) :
  In (Delete b) (trace (snd (process_page env args idx page w))) ->
  In (Delete b) (trace w) \/
  (Py.getitem page (VStr "id") = Ok b /\
   is_empty (notion env) b = Ok true /\
   Argparse.getattr args "confirm_delete" = Ok true /\
   exists answer rest,
     stdin w = answer :: rest /\ Str.lower (Str.strip answer) = "yes").
Proof.
  intros Hin.
  match goal with |- ?Q => remember Q as claim eqn:Hclaim end.
  revert Hin.
  step_cases; intros Hin; rewrite ?in_app_iff in Hin; cbn [In] in Hin;
    subst claim;
    repeat match goal with
           | H : _ \/ _ |- _ => destruct H as [H | H]
           | H : False |- _ => destruct H
           | H : Print _ = Delete _ |- _ => discriminate H
           | H : Prompt _ = Delete _ |- _ => discriminate H
           | H : Post _ _ = Delete _ |- _ => discriminate H
           | H : Update _ _ = Delete _ |- _ => discriminate H
           end;
    try (left; assumption).
  all: match goal with H : Delete _ = Delete _ |- _ => inversion H; subst end.
  all: right; repeat split; try reflexivity; try assumption;
    do 2 eexists; (split; [first [reflexivity | eassumption]
                          | now apply String.eqb_eq]).
Qed.

Lemma truthy_str_true (s : string) : Py.truthy (VStr s) = true -> s <> "".
Proof.
  cbn [Py.truthy]. intros H Hs. subst s. discriminate H.
Qed.

Lemma truthy_str_false (s : string) : Py.truthy (VStr s) = false -> s = "".
Proof.
  cbn [Py.truthy]. intros H. apply String.eqb_eq.
  now destruct (String.eqb s "").
Qed.

Lemma title_of_answer_Ok (response : Response) (title : string) :
  (data <- json response ;;
   answer <- Py.getitem data (VStr "response") ;;
   Py.strip answer) = Ok title ->
  title_of_answer response = title.
Proof. intros H. unfold title_of_answer. now rewrite H. Qed.

Lemma title_of_answer_Raise (response : Response) (e : exn) :
  (data <- json response ;;
   answer <- Py.getitem data (VStr "response") ;;
   Py.strip answer) = Raise e ->
  title_of_answer response = llm_error.
Proof. intros H. unfold title_of_answer. now rewrite H. Qed.

(** A title-update call is only issued for the page at hand, outside the
    deletion branch, with [auto_apply] set or after the line read at the
    prompt was [yes]; the title it carries is never empty, and is either
    the literal ["[No content]"] (the page has no extracted text) or what
    [suggest_title_llm] made of the endpoint's answer. *)
Theorem update_only_when_allowed (env : Env) (args : Argparse.Namespace)
  (idx : nat) (page : pyval) (w : world) (p props : pyval) :
  In (Update p props) (trace (snd (process_page env args idx page w))) ->
  In (Update p props) (trace w) \/
  (Py.getitem page (VStr "id") = Ok p /\
   (is_empty (notion env) p = Ok false \/
    Argparse.getattr args "confirm_delete" = Ok false) /\
   (Argparse.getattr args "auto_apply" = Ok true \/
    exists answer rest,
      stdin w = answer :: rest /\ Str.lower (Str.strip answer) = "yes") /\
   exists title,
     props = title_properties title /\ title <> "" /\
     ((get_page_content_text (notion env) p = Ok "" /\
       title = "[No content]") \/
      (exists raw_text response,
          get_page_content_text (notion env) p = Ok raw_text /\
          raw_text <> "" /\
          post env generate_url (generate_body raw_text default_model)
          = Ok response /\
          title = title_of_answer response))).
Proof.
  intros Hin.
  match goal with |- ?Q => remember Q as claim eqn:Hclaim end.
  revert Hin.
  step_cases; intros Hin; rewrite ?in_app_iff in Hin; cbn [In] in Hin;
    subst claim;
    repeat match goal with
           | H : _ \/ _ |- _ => destruct H as [H | H]
           | H : False |- _ => destruct H
           | H : Print _ = Update _ _ |- _ => discriminate H
           | H : Prompt _ = Update _ _ |- _ => discriminate H
           | H : Post _ _ = Update _ _ |- _ => discriminate H
           | H : Delete _ = Update _ _ |- _ => discriminate H
           end;
    try (left; assumption).
  all: match goal with
       | H : Update _ _ = Update _ _ |- _ => inversion H; subst
       end.
  all: right; split; [first [reflexivity | assumption] |]; split;
    [first [left; assumption | right; first [reflexivity | assumption]] |];
    split;
    [first [left; first [reflexivity | assumption]
           | right; do 2 eexists;
             (split; [first [reflexivity | eassumption]
                     | now apply String.eqb_eq])] |].
  all: eexists; split; [reflexivity |]; split;
    [now apply truthy_str_true |].
  all: first
         [ left; split; [| reflexivity];
           match goal with
           | H : Py.truthy (VStr ?s) = false |- _ =>
               apply truthy_str_false in H; subst s; assumption
           end
         | right; do 2 eexists; split; [eassumption |]; split;
           [now apply truthy_str_true |]; split; [eassumption |];
           symmetry;
           first [ now apply title_of_answer_Ok
                 | eapply title_of_answer_Raise; eassumption ] ].
Qed.

Lemma delete_only_after_yes_witness :
  In (Delete a_page_id) [] \/
  (Py.getitem demo_page_1 (VStr "id") = Ok a_page_id /\
   is_empty (notion yes_env) a_page_id = Ok true /\
   Argparse.getattr cautious_args "confirm_delete" = Ok true /\
   exists answer rest,
     stdin {| stdin := [" YES"; "no"]; trace := [] |} = answer :: rest /\
     Str.lower (Str.strip answer) = "yes").
Proof.
  apply (delete_only_after_yes yes_env cautious_args 1 demo_page_1
           {| stdin := [" YES"; "no"]; trace := [] |} a_page_id).
  vm_compute. right; right; left; reflexivity.
Defined.

Lemma update_only_when_allowed_witness :
  exists title,
    title <> "" /\
    In (Update a_page_id (title_properties title))
       (trace (snd (process_page meeting_env cautious_args 1 demo_page_1
                                 {| stdin := ["yes"]; trace := [] |}))).
Proof.
  assert (Hin : In (Update a_page_id (title_properties "Weekly sync"))
                   (trace (snd (process_page meeting_env cautious_args 1
                                             demo_page_1
                                             {| stdin := ["yes"];
                                                trace := [] |})))).
  { vm_compute. do 4 right. left. reflexivity. }
  destruct (update_only_when_allowed _ _ _ _ _ _ _ Hin)
    as [[] | (_ & _ & _ & title & Hprops & Hne & _)].
  exists title. split; [exact Hne |]. now rewrite <- Hprops.
Defined.

(** For a page that [is_empty] classifies as empty, with [confirm_delete]
    set, an answer that is [yes] once stripped and lowered issues one delete
    call for the page and nothing else remote; the confirmation line is
    printed when the call returns, and when it raises the exception leaves
    the step. *)
Theorem accepted_deletion_deletes_once (env : Env)
  (args : Argparse.Namespace) (idx : nat) (page edited : pyval)
  (pid raw_text answer : string) (lines : list string) (tr : list event) :
  Argparse.getattr args "confirm_delete" = Ok true ->
  Py.getitem page (VStr "id") = Ok (VStr pid) ->
  (t <- Py.getitem page (VStr "last_edited_time") ;; Py.slice_to 10 t)
  = Ok edited ->
  get_page_content_text (notion env) (VStr pid) = Ok raw_text ->
  is_empty (notion env) (VStr pid) = Ok true ->
  Str.lower (Str.strip answer) = "yes" ->
  process_page env args idx page {| stdin := answer :: lines; trace := tr |}
  = (match blocks_delete (notion env) (VStr pid) with
     | Ok _ => Ok tt
     | Raise e => Raise e
     end,
     {| stdin := lines;
        trace := (tr ++ [Print (empty_notice idx pid);
                         Prompt delete_prompt;
                         Delete (VStr pid)]
                     ++ match blocks_delete (notion env) (VStr pid) with
                        | Ok _ => [Print deleted_line]
                        | Raise _ => []
                        end)%list |}).
Proof.
  intros Hcd Hid Hed Htext Hemp Hans.
  assert (Hraw : raw_text = "") by (eapply empty_page_has_no_text; eauto).
  subst raw_text.
  unfold process_page, mbind, lift, ret. rewrite Hid, Hed.
  cbn [format_notion_url Py.replace bind]. rewrite Htext, Hemp, Hcd.
  cbn [Py.truthy String.eqb negb]. unfold emit, input.
  cbn [stdin trace]. rewrite Hans. cbn [String.eqb Ascii.eqb Bool.eqb].
  unfold empty_notice, deleted_line.
  destruct (blocks_delete (notion env) (VStr pid));
    cbn [stdin trace]; rewrite <- ?app_assoc; reflexivity.
Qed.

Lemma accepted_deletion_deletes_once_witness :
  process_page yes_env cautious_args 1 demo_page_1
               {| stdin := [" YES"; "no"]; trace := [] |}
  = (Ok tt,
     {| stdin := ["no"];
        trace := [Print (empty_notice 1 "1f2e-3d4c");
                  Prompt delete_prompt;
                  Delete (VStr "1f2e-3d4c");
                  Print deleted_line] |}).
Proof.
  apply (accepted_deletion_deletes_once yes_env cautious_args 1 demo_page_1
           (VStr "2024-05-01") "1f2e-3d4c" "" " YES" ["no"] []);
    reflexivity.
Defined.

(** Without [--auto-apply], a page with text and a non-empty suggestion is
    shown the title prompt after one generation request; the title-update
    call is issued exactly when the line read is [yes] once stripped and
    lowered, and any other answer leaves the page as it is. *)
Theorem prompted_title_applied_on_yes (env : Env)
  (args : Argparse.Namespace) (idx : nat) (page edited : pyval)
  (pid raw_text answer : string) (response : Response) (b : bool)
  (lines : list string) (tr : list event) :
  Argparse.getattr args "auto_apply" = Ok false ->
  Py.getitem page (VStr "id") = Ok (VStr pid) ->
  (t <- Py.getitem page (VStr "last_edited_time") ;; Py.slice_to 10 t)
  = Ok edited ->
  get_page_content_text (notion env) (VStr pid) = Ok raw_text ->
  raw_text <> "" ->
  post env generate_url (generate_body raw_text default_model)
  = Ok response ->
  title_of_answer response <> "" ->
  is_empty (notion env) (VStr pid) = Ok b ->
  let w' := snd (process_page env args idx page
                              {| stdin := answer :: lines; trace := tr |}) in
  stdin w' = lines /\
  trace w' = (tr ++ prompted_events env idx pid raw_text
                                    (title_of_answer response) answer)%list.
Proof.
  intros Hauto Hid Hed Htext Hraw Hpost Htitle Hemp w'.
  assert (Hb : b = false).
  { destruct b; [| reflexivity]. exfalso. apply Hraw.
    eapply empty_page_has_no_text; eauto. }
  subst b.
  assert (Htruthy : forall s, s <> "" -> Py.truthy (VStr s) = true).
  { intros s Hs. cbn [Py.truthy].
    destruct (String.eqb s "") eqn:E; [| reflexivity].
    apply String.eqb_eq in E. contradiction. }
  unfold w', process_page, mbind, lift, ret. rewrite Hid, Hed.
  cbn [format_notion_url Py.replace bind].
  rewrite Htext, (Htruthy _ Hraw).
  rewrite (suggest_title_llm_Ok _ _ _ _ _ Hpost). rewrite Hemp.
  rewrite (Htruthy _ Htitle). unfold emit, input. cbn [stdin trace].
  rewrite Hauto. cbn [stdin trace]. cbv zeta.
  unfold prompted_events, suggestion_line, open_line, applied_line.
  destruct (String.eqb (Str.lower (Str.strip answer)) "yes").
  - unfold apply_title, mbind, emit, lift. cbn [stdin trace].
    destruct (pages_update (notion env) (VStr pid)
                (title_properties (title_of_answer response)));
      cbn [snd stdin trace]; rewrite <- ?app_assoc; split; reflexivity.
  - cbn [snd stdin trace]. rewrite <- ?app_assoc. split; reflexivity.
Qed.

Lemma prompted_title_applied_on_yes_witness :
  trace (snd (process_page meeting_env cautious_args 1 demo_page_1
                           {| stdin := ["nope"]; trace := [] |}))
  = [Post generate_url (generate_body "Meeting notes" default_model);
     Print (suggestion_line 1 "Weekly sync");
     Print (open_line "1f2e-3d4c");
     Prompt apply_prompt].
Proof.
  refine (proj2 (prompted_title_applied_on_yes
                   meeting_env cautious_args 1 demo_page_1
                   (VStr "2024-05-01") "1f2e-3d4c" "Meeting notes" "nope"
                   {| json := Ok (VDict [("model", VStr "gemma:2b-instruct");
                                         ("response", VStr " Weekly sync ");
                                         ("done", VBool true)]) |}
                   false [] [] _ _ _ _ _ _ _ _)); try reflexivity;
    discriminate.
Defined.

(** A page that is not empty but has no extracted text (its text sits in
    blocks other than paragraphs and headings, or it holds media only) gets
    the literal ["[No content]"] as suggestion without any generation
    request; under [--auto-apply] that literal is written as the page's
    title, without a prompt. *)
Theorem no_content_title_is_applied (env : Env) (args : Argparse.Namespace)
  (idx : nat) (page edited : pyval) (pid : string) (w : world) :
  Argparse.getattr args "auto_apply" = Ok true ->
  Py.getitem page (VStr "id") = Ok (VStr pid) ->
  (t <- Py.getitem page (VStr "last_edited_time") ;; Py.slice_to 10 t)
  = Ok edited ->
  get_page_content_text (notion env) (VStr pid) = Ok "" ->
  is_empty (notion env) (VStr pid) = Ok false ->
  let w' := snd (process_page env args idx page w) in
  stdin w' = stdin w /\
  trace w' = (trace w ++ no_content_events env idx pid)%list.
Proof.
  intros Hauto Hid Hed Htext Hemp w'.
  unfold w', process_page, mbind, lift, ret. rewrite Hid, Hed.
  cbn [format_notion_url Py.replace bind]. rewrite Htext, Hemp.
  cbn [Py.truthy String.eqb negb]. unfold emit. cbn [stdin trace].
  rewrite Hauto. unfold apply_title, mbind, emit, lift. cbn [stdin trace].
  unfold no_content_events, suggestion_line, open_line, applied_line.
  destruct (pages_update (notion env) (VStr pid)
              (title_properties "[No content]"));
    cbn [snd stdin trace]; rewrite <- ?app_assoc; split; reflexivity.
Qed.

Lemma no_content_title_is_applied_witness :
  get_page_content_text (notion quoted_env) a_page_id = Ok "" /\
  trace (snd (process_page quoted_env eager_args 1 demo_page_1
                           {| stdin := []; trace := [] |}))
  = [Print (suggestion_line 1 "[No content]");
     Print (open_line "1f2e-3d4c");
     Update a_page_id (title_properties "[No content]");
     Print applied_line].
Proof.
  split; [reflexivity |].
  refine (proj2 (no_content_title_is_applied
                   quoted_env eager_args 1 demo_page_1 (VStr "2024-05-01")
                   "1f2e-3d4c" {| stdin := []; trace := [] |}
                   _ _ _ _ _)); reflexivity.
Defined.

(** A page that is not a dictionary is classified untitled, so the stream
    yields it; processing it then raises at [page["id"]], before anything
    is fetched, printed or changed. *)
Theorem malformed_page_is_yielded_then_aborts (env : Env)
  (args : Argparse.Namespace) (idx : nat) (page : pyval) (w : world) :
  (forall d, page <> VDict d) ->
  is_untitled page = Ok true /\
  yield_untitled [page] = ([page], None) /\
  process_page env args idx page w = (Raise TypeError, w).
Proof.
  intros Hpage.
  destruct page as [| | | | s | l | d];
    try (repeat split; reflexivity).
  now destruct (Hpage d).
Qed.

Lemma malformed_page_is_yielded_then_aborts_witness :
  is_untitled (VStr "1f2e-3d4c") = Ok true /\
  yield_untitled [VStr "1f2e-3d4c"] = ([VStr "1f2e-3d4c"], None) /\
  process_page yes_env cautious_args 1 (VStr "1f2e-3d4c")
               {| stdin := ["yes"]; trace := [] |}
  = (Raise TypeError, {| stdin := ["yes"]; trace := [] |}).
Proof.
  apply (malformed_page_is_yielded_then_aborts yes_env cautious_args 1
           (VStr "1f2e-3d4c")).
  intros d H. discriminate H.
Defined.

(** A page record without ["id"] or without ["last_edited_time"] makes the
    step raise [KeyError] before anything is fetched, printed or changed,
    although the timestamp is not used afterwards. *)
Theorem page_without_id_or_timestamp_aborts (env : Env)
  (args : Argparse.Namespace) (idx : nat) (d : list (string * pyval))
  (w : world) :
  Py.lookup d "id" = None \/ Py.lookup d "last_edited_time" = None ->
  process_page env args idx (VDict d) w = (Raise KeyError, w).
Proof.
  intros H. unfold process_page, mbind, lift. cbn [Py.getitem Py.hashable].
  destruct (Py.lookup d "id") as [page_id |] eqn:Hid; [| reflexivity].
  destruct H as [H | H]; [discriminate H |]. now rewrite H.
Qed.

Lemma page_without_id_or_timestamp_aborts_witness :
  process_page yes_env cautious_args 1
               (VDict [("id", VStr "1f2e-3d4c"); ("properties", VDict [])])
               {| stdin := ["yes"]; trace := [] |}
  = (Raise KeyError, {| stdin := ["yes"]; trace := [] |}).
Proof.
  apply page_without_id_or_timestamp_aborts. now right.
Defined.

(** ** The stream, whatever the service answers *)

Lemma yield_untitled_sound (pages : list pyval) :
  forall page, In page (fst (yield_untitled pages)) ->
               is_untitled page = Ok true /\ In page pages.
Proof.
  induction pages as [| p rest IH]; cbn [yield_untitled]; intros page Hin.
  - destruct Hin.
  - destruct (is_untitled p) as [[|] | e] eqn:Hp; [| | destruct Hin].
    + destruct (yield_untitled rest) as [ys r]. cbn [fst] in *.
      destruct Hin as [<- | Hin]; [split; [exact Hp | now left] |].
      destruct (IH _ Hin). split; [assumption | now right].
    + destruct (yield_untitled rest) as [ys r]. cbn [fst] in *.
      destruct (IH _ Hin). split; [assumption | now right].
Qed.

Lemma stream_from_sound (notion : Client) (fuel : nat) :
  forall cursor page,
    In page (fst (stream_from notion fuel cursor)) ->
    is_untitled page = Ok true /\
    exists c response results items,
      search notion (VStr "") page_filter c = Ok response /\
      Py.getitem response (VStr "results") = Ok results /\
      Py.iter results = Ok items /\
      In page items.
Proof.
  induction fuel as [| fuel IH]; intros cursor page; cbn [stream_from];
    [intros [] |].
  destruct (search notion (VStr "") page_filter cursor) as [response | e]
    eqn:Hs; [| intros []].
  destruct (Py.getitem response (VStr "results")) as [results | e] eqn:Hr;
    cbn [bind]; [| intros []].
  destruct (Py.iter results) as [items | e] eqn:Hi; [| intros []].
  pose proof (yield_untitled_sound items) as Hy.
  destruct (yield_untitled items) as [ys [e |]]; cbn [fst] in Hy.
  - cbn [fst]. intros Hin. destruct (Hy _ Hin). split; [assumption |].
    now exists cursor, response, results, items.
  - destruct (Py.get response (VStr "next_cursor") VNone) as [c' | e].
    + destruct (negb (Py.truthy c')).
      * cbn [fst]. intros Hin. destruct (Hy _ Hin). split; [assumption |].
        now exists cursor, response, results, items.
      * specialize (IH c'). destruct (stream_from notion fuel c') as [ys' fin].
        cbn [fst] in *. intros Hin. apply in_app_or in Hin as [Hin | Hin].
        -- destruct (Hy _ Hin). split; [assumption |].
           now exists cursor, response, results, items.
        -- now apply IH.
    + cbn [fst]. intros Hin. destruct (Hy _ Hin). split; [assumption |].
      now exists cursor, response, results, items.
Qed.

(** Whatever the service answers and however the generator ends (by its
    break, by an exception, or still running), every page it has yielded
    is one that [is_untitled] returned [True] for, and is an item of the
    ["results"] of a response to one of its searches. *)
Theorem stream_yields_only_untitled (notion : Client) (fuel : nat)
  (page : pyval) :
  In page (fst (stream_untitled_pages notion fuel)) ->
  is_untitled page = Ok true /\
  exists cursor response results items,
    search notion (VStr "") page_filter cursor = Ok response /\
    Py.getitem response (VStr "results") = Ok results /\
    Py.iter results = Ok items /\
    In page items.
Proof. apply stream_from_sound. Qed.

Lemma stream_yields_only_untitled_witness :
  is_untitled demo_page_3 = Ok true.
Proof.
  refine (proj1 (stream_yields_only_untitled demo_search_client 2
                   demo_page_3 _)).
  vm_compute. right; left; reflexivity.
Defined.

Lemma stream_from_endless (notion : Client) :
  (forall cursor, exists response,
      search notion (VStr "") page_filter cursor = Ok response /\
      classifiable response /\
      exists cursor', next_cursor response = Some cursor') ->
  forall fuel cursor, snd (stream_from notion fuel cursor) = GenFuel.
Proof.
  intros Hall. induction fuel as [| fuel IH]; intros cursor; [reflexivity |].
  destruct (Hall cursor) as (response & Hs & ((pages & Hp) & Hcl) & c' & Hn).
  cbn [stream_from]. rewrite Hs, Hp. cbn [bind Py.iter].
  unfold pages_of in Hcl. rewrite Hp in Hcl.
  rewrite (yield_untitled_filter _ Hcl).
  unfold next_cursor in Hn.
  destruct (Py.get response (VStr "next_cursor") VNone) as [c | e];
    [| discriminate].
  destruct (Py.truthy c) eqn:Hc; [| discriminate].
  inversion Hn; subst c. cbn [negb]. specialize (IH c').
  destruct (stream_from notion fuel c') as [ys fin]. exact IH.
Qed.

(** The loop has no other exit than a response without cursor: against a
    service whose every response carries one, the generator is still
    running after any number of searches. *)
Theorem stream_runs_on_while_cursors_come (notion : Client) :
  (forall cursor, exists response,
      search notion (VStr "") page_filter cursor = Ok response /\
      classifiable response /\
      exists cursor', next_cursor response = Some cursor') ->
  forall fuel, snd (stream_untitled_pages notion fuel) = GenFuel.
Proof.
  intros Hall fuel. now apply stream_from_endless.
Qed.

Lemma stream_runs_on_while_cursors_come_witness :
  snd (stream_untitled_pages endless_client 25) = GenFuel.
Proof.
  apply (stream_runs_on_while_cursors_come endless_client).
  intros cursor. eexists. split; [reflexivity |]. split.
  - split; [eexists; reflexivity |]. repeat constructor. eexists. reflexivity.
  - eexists. reflexivity.
Defined.

Lemma yield_untitled_raise (pre rest : list pyval) (bad : pyval) (e : exn) :
  Forall (fun page => exists b, is_untitled page = Ok b) pre ->
  is_untitled bad = Raise e ->
  yield_untitled (pre ++ bad :: rest) = (filter untitled pre, Some e).
Proof.
  intros Hpre Hbad. induction Hpre as [| page pre (b & Hb) Hpre IH].
  - cbn. now rewrite Hbad.
  - cbn [app yield_untitled filter]. unfold untitled at 1.
    rewrite Hb, IH. reflexivity.
Qed.

(** [extract_title] returns whatever sits under [text.content]; when that
    is not a string, [is_untitled] raises [AttributeError] at [.lower()],
    outside any handler, and the generator raises with it after yielding
    the untitled pages that came before in the response. *)
Theorem stream_aborts_on_unreadable_title (notion : Client)
  (response content : pyval) (pre rest : list pyval) (bad : pyval)
  (fuel : nat) :
  search notion (VStr "") page_filter VNone = Ok response ->
  Py.getitem response (VStr "results") = Ok (VList (pre ++ bad :: rest)) ->
  Forall (fun page => exists b, is_untitled page = Ok b) pre ->
  extract_title bad = Ok content ->
  (forall s, content <> VStr s) ->
  is_untitled bad = Raise AttributeError /\
  stream_untitled_pages notion (S fuel)
  = (filter untitled pre, GenRaise AttributeError).
Proof.
  intros Hs Hr Hpre Hbad Hcontent.
  assert (Hraise : is_untitled bad = Raise AttributeError).
  { unfold is_untitled. rewrite Hbad. cbn [bind].
    destruct content as [| | | | s | |]; try reflexivity.
    now destruct (Hcontent s). }
  split; [exact Hraise |].
  unfold stream_untitled_pages. cbn [stream_from]. rewrite Hs, Hr.
  cbn [bind Py.iter]. now rewrite (yield_untitled_raise _ _ _ _ Hpre Hraise).
Qed.

Lemma stream_aborts_on_unreadable_title_witness :
  stream_untitled_pages broken_results_client 3
  = ([demo_page_1], GenRaise AttributeError).
Proof.
  refine (proj2 (stream_aborts_on_unreadable_title broken_results_client
                   _ VNone [demo_page_1; demo_page_2] [demo_page_3]
                   (page_with_content VNone) 2 eq_refl eq_refl _ eq_refl _)).
  - repeat constructor; eexists; reflexivity.
  - intros s H. discriminate H.
Defined.

(** A page whose title resolves to a string that, lowercased, is not one
    of the three untitled names is never yielded by the stream, so the run
    never prompts for it, retitles it or deletes it. *)
Theorem titled_page_is_never_yielded (notion : Client) (fuel : nat)
  (page : pyval) (title : string) :
  extract_title page = Ok (VStr title) ->
  ~ In (Str.lower title) [""; "untitled"; "[untitled]"] ->
  ~ In page (fst (stream_untitled_pages notion fuel)).
Proof.
  intros Ht Hname Hin.
  apply stream_from_sound in Hin as [Hu _].
  rewrite (is_untitled_eq _ _ Ht) in Hu.
  assert (Hb : Py.in_strs (VStr (Str.lower title)) untitled_names = true)
    by congruence.
  apply in_strs_In in Hb. contradiction.
Qed.

Lemma titled_page_is_never_yielded_witness :
  extract_title demo_page_2 = Ok (VStr "Roadmap") /\
  ~ In demo_page_2 (fst (stream_untitled_pages demo_search_client 2)).
Proof.
  split; [reflexivity |].
  apply (titled_page_is_never_yielded demo_search_client 2 demo_page_2
           "Roadmap"); [reflexivity |].
  cbn. intros [H | [H | [H | []]]]; discriminate H.
Defined.

(** ** The two passes over the blocks *)

Lemma collect_blocks_app (a b : list pyval) :
  forall acc,
    collect_blocks (a ++ b) acc
    = (acc' <- collect_blocks a acc ;; collect_blocks b acc').
Proof.
  induction a as [| block a IH]; intros acc; [reflexivity |].
  cbn [app collect_blocks].
  destruct (Py.getitem block (VStr "type")) as [bt | e]; [| reflexivity].
  cbn [bind]. destruct (Py.in_strs bt text_block_types); [| apply IH].
  destruct (Py.getitem block bt) as [bd | e]; [| reflexivity]. cbn [bind].
  destruct (Py.get bd (VStr "rich_text") (VList [])) as [rt | e];
    [| reflexivity].
  cbn [bind]. destruct (Py.iter rt) as [spans | e]; [| reflexivity].
  cbn [bind]. destruct (collect_spans spans acc) as [acc1 | e];
    [| reflexivity].
  cbn [bind]. apply IH.
Qed.

Lemma is_empty_blocks_app (a b : list pyval) :
  is_empty_blocks (a ++ b)
  = (r <- is_empty_blocks a ;; if r then is_empty_blocks b else Ok false).
Proof.
  induction a as [| block a IH]; [reflexivity |].
  cbn [app is_empty_blocks].
  destruct (Py.get block (VStr "type") VNone) as [bt | e]; [| reflexivity].
  cbn [bind].
  destruct (Py.get block bt (VDict [])) as [bd | e]; [| reflexivity].
  cbn [bind].
  destruct (Py.contains_str "rich_text" bd) as [[|] | e]; cbn [bind];
    try reflexivity.
  - destruct (Py.getitem bd (VStr "rich_text")) as [rt | e]; [| reflexivity].
    cbn [bind]. destruct (Py.iter rt) as [spans | e]; [| reflexivity].
    cbn [bind].
    destruct (scan_rich_text spans) as [[found |] | e] eqn:Hscan;
      cbn [bind]; [| exact IH | reflexivity].
    apply scan_rich_text_Some in Hscan. now subst found.
  - destruct (Py.in_strs bt duplicated_types); [exact IH |].
    destruct (Py.in_strs bt always_visible_types); [reflexivity |].
    destruct (Py.truthy bd); [reflexivity | exact IH].
Qed.

(** The loop of [is_empty] over a concatenation is the loop over the first
    part followed, when that part is empty, by the loop over the second.
    So once a block has made the page not empty, the blocks after it are
    never looked at, whatever they hold; and an exception on a block
    leaves the function whatever follows. *)
Theorem is_empty_stops_at_first_content (a b : list pyval) :
  is_empty_blocks (a ++ b)
  = (r <- is_empty_blocks a ;; if r then is_empty_blocks b else Ok false) /\
  (is_empty_blocks a = Ok false -> is_empty_blocks (a ++ b) = Ok false) /\
  (forall e, is_empty_blocks a = Raise e ->
             is_empty_blocks (a ++ b) = Raise e).
Proof.
  rewrite is_empty_blocks_app. split; [reflexivity |]. split.
  - intros H. now rewrite H.
  - intros e H. now rewrite H.
Qed.

Lemma is_empty_stops_at_first_content_witness :
  is_empty_blocks ([divider; image_block] ++ [VNone; VStr "not a block"])
  = Ok false.
Proof.
  apply (proj1 (proj2 (is_empty_stops_at_first_content
                         [divider; image_block]
                         [VNone; VStr "not a block"]))).
  reflexivity.
Defined.

(** The two passes read the type tag differently: on a block without
    ["type"], text extraction raises [KeyError] at [block["type"]], while
    the emptiness check, which uses [block.get], steps over it. *)
Theorem block_without_type_splits_the_passes (notion : Client)
  (page_id : pyval) (pre rest : list pyval) (d : list (string * pyval)) :
  fetch_blocks notion page_id = Ok (pre ++ VDict d :: rest)%list ->
  forallb block_shaped pre = true ->
  Py.lookup d "type" = None ->
  get_page_content_text notion page_id = Raise KeyError /\
  is_empty notion page_id = is_empty_blocks (pre ++ rest).
Proof.
  intros Hf Hpre Hd. split.
  - unfold get_page_content_text. rewrite Hf. cbn [bind].
    rewrite collect_blocks_app, (collect_blocks_shaped _ Hpre). cbn [bind].
    cbn [collect_blocks Py.getitem Py.hashable]. now rewrite Hd.
  - unfold is_empty. rewrite Hf. cbn [bind].
    rewrite !is_empty_blocks_app.
    destruct (is_empty_blocks pre) as [[|] | e]; cbn [bind]; try reflexivity.
    cbn [is_empty_blocks Py.get Py.hashable]. rewrite Hd. reflexivity.
Qed.

Lemma block_without_type_splits_the_passes_witness :
  get_page_content_text
    (client_with_blocks [paragraph [text_span ""]; untyped_block; divider])
    a_page_id = Raise KeyError /\
  is_empty
    (client_with_blocks [paragraph [text_span ""]; untyped_block; divider])
    a_page_id = Ok true.
Proof.
  apply (block_without_type_splits_the_passes
           (client_with_blocks [paragraph [text_span ""]; untyped_block;
                                divider])
           a_page_id [paragraph [text_span ""]] [divider]
           [("object", VStr "block"); ("id", VStr "0a1b")]);
    reflexivity.
Defined.

(** When both passes return, they do not disagree: a page classified empty
    has no extracted text, and a page with extracted text is classified
    not empty.  The converse does not hold, as text in other blocks than
    paragraphs and headings is not extracted. *)
Theorem text_and_emptiness_agree (notion : Client) (page_id : pyval)
  (raw_text : string) (b : bool) :
  get_page_content_text notion page_id = Ok raw_text ->
  is_empty notion page_id = Ok b ->
  (b = true -> raw_text = "") /\ (raw_text <> "" -> b = false).
Proof.
  intros Ht He. split.
  - intros ->. eapply empty_page_has_no_text; eauto.
  - intros Hraw. destruct b; [| reflexivity]. exfalso. apply Hraw.
    eapply empty_page_has_no_text; eauto.
Qed.

Lemma text_and_emptiness_agree_witness :
  get_page_content_text (client_with_blocks meeting_blocks) a_page_id
  = Ok "Meeting notes" /\
  is_empty (client_with_blocks meeting_blocks) a_page_id = Ok false /\
  (false = true -> "Meeting notes" = "") /\
  ("Meeting notes" <> "" -> false = false).
Proof.
  split; [reflexivity |]. split; [reflexivity |].
  apply (text_and_emptiness_agree (client_with_blocks meeting_blocks)
           a_page_id "Meeting notes" false); reflexivity.
Defined.

(** ** The page URL *)

Lemma replace_hyphen_filter (s : string) :
  Str.replace "-"%char "" s = without_hyphens s.
Proof.
  unfold without_hyphens. induction s as [| c s IH]; [reflexivity |].
  cbn [Str.replace list_ascii_of_string filter].
  destruct (Ascii.eqb c "-"%char); cbn [negb string_of_list_ascii append];
    now rewrite IH.
Qed.

(** For a string identifier the URL is the fixed base followed by the
    identifier's characters other than the hyphen, in order: it contains
    no hyphen after the base, and an identifier without hyphen is kept as
    it is.  An identifier that is not a string raises [AttributeError]. *)
Theorem format_notion_url_strips_hyphens (page_id : pyval) :
  (forall pid, page_id = VStr pid ->
     format_notion_url page_id
     = Ok ("https://www.notion.so/" ++ without_hyphens pid) /\
     ~ In "-"%char (list_ascii_of_string (without_hyphens pid)) /\
     (~ In "-"%char (list_ascii_of_string pid) -> without_hyphens pid = pid)) /\
  ((forall pid, page_id <> VStr pid) ->
   format_notion_url page_id = Raise AttributeError).
Proof.
  split.
  - intros pid ->. split; [| split].
    + unfold format_notion_url. cbn [Py.replace bind].
      now rewrite replace_hyphen_filter.
    + unfold without_hyphens. rewrite list_ascii_of_string_of_list_ascii.
      intros Hin. apply filter_In in Hin as [_ H]. discriminate H.
    + intros Hno. unfold without_hyphens.
      rewrite <- (string_of_list_ascii_of_string pid) at 2. f_equal.
      induction (list_ascii_of_string pid) as [| c l IH]; [reflexivity |].
      cbn [filter]. destruct (Ascii.eqb c "-"%char) eqn:E.
      * apply Ascii.eqb_eq in E. subst c. destruct Hno. now left.
      * cbn [negb]. f_equal. apply IH. intros H. apply Hno. now right.
  - intros Hns. destruct page_id as [| | | | s | |]; try reflexivity.
    now destruct (Hns s).
Qed.

Lemma format_notion_url_strips_hyphens_witness :
  format_notion_url (VStr "1f2e-3d4c-5b6a")
  = Ok "https://www.notion.so/1f2e3d4c5b6a" /\
  format_notion_url VNone = Raise AttributeError.
Proof.
  split.
  - apply (proj1 (format_notion_url_strips_hyphens (VStr "1f2e-3d4c-5b6a"))
                 "1f2e-3d4c-5b6a" eq_refl).
  - apply (proj2 (format_notion_url_strips_hyphens VNone)).
    intros pid H. discriminate H.
Defined.

(** ** Stripped results *)

Lemma clean_start_lstrip (s : string) : clean_start s -> Str.lstrip s = s.
Proof.
  destruct s as [| c1 [| c2 [| c3 r3]]]; cbn [clean_start Str.lstrip];
    [reflexivity | intros [H1 _] | intros [H1 [H2 _]]
    | intros [H1 [H2 H3]]];
    rewrite ?H1, ?H2, ?H3; reflexivity.
Qed.

Lemma lstrip_clean_start (n : nat) :
  forall s, String.length s <= n -> clean_start (Str.lstrip s).
Proof.
  induction n as [| n IH]; intros s Hlen.
  - destruct s; [exact I | cbn in Hlen; lia].
  - destruct s as [| c1 r1]; [exact I |].
    cbn [String.length] in Hlen. cbn [Str.lstrip].
    destruct (Str.is_space (String c1 EmptyString)) eqn:H1;
      [apply IH; lia |].
    destruct r1 as [| c2 r2]; [cbn; auto |]. cbn [String.length] in Hlen.
    destruct (Str.is_space (String c1 (String c2 EmptyString))) eqn:H2;
      [apply IH; lia |].
    destruct r2 as [| c3 r3]; [cbn; auto |]. cbn [String.length] in Hlen.
    destruct (Str.is_space (String c1 (String c2 (String c3 EmptyString))))
      eqn:H3; [apply IH; lia |].
    cbn. auto.
Qed.

(** A prefix of a string with a clean start has a clean start. *)
Lemma clean_start_prefix (p q : string) :
  clean_start (p ++ q) -> clean_start p.
Proof.
  destruct p as [| c1 [| c2 [| c3 r3]]]; cbn [append clean_start].
  - auto.
  - intros [H1 _]. auto.
  - intros [H1 [H2 _]]. auto.
  - intros [H1 [H2 H3]]. auto.
Qed.

Lemma rstrip_idempotent (s : string) :
  Str.rstrip (Str.rstrip s) = Str.rstrip s.
Proof.
  induction s as [| c r IH]; [reflexivity |].
  cbn [Str.rstrip]. cbv zeta.
  destruct (Str.is_space (String c (Str.rstrip r))) eqn:H; [reflexivity |].
  cbn [Str.rstrip]. cbv zeta. now rewrite IH, H.
Qed.

(** Stripping a stripped string changes nothing. *)
Lemma strip_idempotent (s : string) : Str.strip (Str.strip s) = Str.strip s.
Proof.
  unfold Str.strip.
  assert (Hclean : clean_start (Str.rstrip (Str.lstrip s))).
  { destruct (rstrip_suffix (Str.lstrip s)) as (q & _ & Heq).
    apply (clean_start_prefix _ q). rewrite <- Heq.
    now apply (lstrip_clean_start (String.length s)). }
  rewrite (clean_start_lstrip _ Hclean). apply rstrip_idempotent.
Qed.

(** Whatever the endpoint does, [suggest_title_llm] makes exactly one
    request, to the fixed URL with the text at the end of the prompt, and
    reads nothing; a title it returns is either the sentinel or the
    stripped ["response"] field, and in both cases has no whitespace left
    at either end. *)
Theorem suggest_title_llm_one_request_stripped_title (post : Requests)
  (text model : string) (w : world) :
  snd (suggest_title_llm post text model w)
  = {| stdin := stdin w;
       trace := (trace w ++ [Post generate_url
                                  (VDict [("model", VStr model);
                                          ("prompt", VStr (prompt_for text));
                                          ("stream", VBool false)])])%list |}
  /\
  (forall title,
      fst (suggest_title_llm post text model w) = Ok title ->
      Str.strip title = title /\
      (title = llm_error \/
       exists response d answer,
         post generate_url (generate_body text model) = Ok response /\
         json response = Ok (VDict d) /\
         Py.lookup d "response" = Some (VStr answer) /\
         title = Str.strip answer)).
Proof.
  unfold suggest_title_llm, mbind, emit, lift, ret. cbn [stdin trace].
  destruct (post generate_url (generate_body text model)) as [response | e]
    eqn:Hpost.
  - destruct (data <- json response ;;
              answer <- Py.getitem data (VStr "response") ;;
              Py.strip answer) as [title | e] eqn:Hparse.
    + split; [reflexivity |]. cbn [fst]. intros t Ht. inversion Ht; subst t.
      apply bind_Ok in Hparse as (data & Hjson & Hparse).
      apply bind_Ok in Hparse as (answer & Hanswer & Hstrip).
      apply getitem_str_inv in Hanswer as (d & -> & Hd).
      destruct answer as [| | | | s | |]; try discriminate.
      inversion Hstrip; subst title.
      split; [apply strip_idempotent |]. right.
      now exists response, d, s.
    + split; [reflexivity |]. cbn [fst]. intros t Ht. inversion Ht; subst t.
      split; [reflexivity | now left].
  - split; [reflexivity |]. cbn [fst]. intros t Ht. discriminate Ht.
Qed.

(** The text [get_page_content_text] returns has no whitespace left at
    either end; so it is empty unless it holds a character that is not
    whitespace, and the loop asks for a suggestion only for such a text. *)
Theorem get_page_content_text_is_stripped (notion : Client) (page_id : pyval)
  (raw_text : string) :
  get_page_content_text notion page_id = Ok raw_text ->
  Str.strip raw_text = raw_text /\
  (blank raw_text -> raw_text = "").
Proof.
  unfold get_page_content_text. intros H.
  apply bind_Ok in H as (blocks & _ & H).
  apply bind_Ok in H as (text_content & _ & H).
  apply bind_Ok in H as (joined & _ & H).
  inversion H; subst raw_text.
  assert (Hs : Str.strip (Str.strip joined) = Str.strip joined)
    by apply strip_idempotent.
  split; [exact Hs |]. intros Hb. apply strip_empty_iff in Hb.
  now rewrite Hs in Hb.
Qed.

Lemma get_page_content_text_is_stripped_witness :
  Str.strip "Meeting notes" = "Meeting notes".
Proof.
  apply (get_page_content_text_is_stripped
           (client_with_blocks meeting_blocks) a_page_id "Meeting notes").
  reflexivity.
Defined.

(** ** The command line, again *)

Lemma prefix_cons (a b : ascii) (s1 s2 : string) :
  String.prefix (String a s1) (String b s2)
  = if Ascii.eqb a b then String.prefix s1 s2 else false.
Proof.
  cbn [String.prefix]. destruct (ascii_dec a b) as [-> | Hne].
  - now rewrite Ascii.eqb_refl.
  - destruct (Ascii.eqb a b) eqn:E; [| reflexivity].
    apply Ascii.eqb_eq in E. contradiction.
Qed.

Lemma prefix_dashes (name : string) :
  String.prefix "--" name = true ->
  exists r, name = String "-" (String "-" r).
Proof.
  destruct name as [| c1 [| c2 r]]; try discriminate.
  - rewrite prefix_cons. destruct (Ascii.eqb "-" c1); discriminate.
  - rewrite !prefix_cons.
    destruct (Ascii.eqb "-" c1) eqn:E1; [| discriminate].
    destruct (Ascii.eqb "-" c2) eqn:E2; [| discriminate].
    apply Ascii.eqb_eq in E1, E2. subst. eauto.
Qed.

(** An option string that selects a flag of the script selects
    [--auto-apply] when it starts with [--a], and [--confirm-delete]
    otherwise. *)
Lemma resolve_store_true (name : string) (a : Argparse.argument) :
  Argparse.resolve parser name = Some a ->
  Argparse.act a = Argparse.store_true ->
  (Argparse.dest a = "auto_apply" /\ String.prefix "--a" name = true) \/
  (Argparse.dest a = "confirm_delete" /\ String.prefix "--a" name = false).
Proof.
  unfold Argparse.resolve, parser, Argparse.exact, Argparse.abbreviates.
  cbn [filter existsb Argparse.option_strings orb].
  destruct (String.eqb name "-h") eqn:E1.
  { cbn. intros H; inversion H; subst a. discriminate. }
  destruct (String.eqb name "--help") eqn:E2.
  { cbn. intros H; inversion H; subst a. discriminate. }
  destruct (String.eqb name "--auto-apply") eqn:E3.
  { apply String.eqb_eq in E3. subst name. cbn.
    intros H; inversion H; subst a. intros _. left. split; reflexivity. }
  destruct (String.eqb name "--confirm-delete") eqn:E4.
  { apply String.eqb_eq in E4. subst name. cbn.
    intros H; inversion H; subst a. intros _. right. split; reflexivity. }
  cbn [orb].
  destruct (String.prefix "--" name) eqn:P; [| discriminate].
  apply prefix_dashes in P as (r & ->).
  change (String.prefix "--" "-h") with false.
  change (String.prefix "--" "--help") with true.
  change (String.prefix "--" "--auto-apply") with true.
  change (String.prefix "--" "--confirm-delete") with true.
  cbn [andb orb]. rewrite !orb_false_r.
  rewrite !prefix_cons. cbn [Ascii.eqb Bool.eqb].
  destruct r as [| c3 r3]; [discriminate |].
  rewrite !prefix_cons.
  destruct (Ascii.eqb c3 "a") eqn:Ea.
  - apply Ascii.eqb_eq in Ea. subst c3. cbn [Ascii.eqb Bool.eqb andb].
    destruct (String.prefix r3 "uto-apply"); [| discriminate].
    intros H; inversion H; subst a. intros _. left.
    split; [reflexivity | now destruct r3].
  - assert (Ea' : Ascii.eqb "a" c3 = false).
    { rewrite Ascii.eqb_sym. exact Ea. }
    rewrite Ea'.
    destruct (if Ascii.eqb c3 "h" then String.prefix r3 "elp" else false),
      (if Ascii.eqb c3 "c" then String.prefix r3 "onfirm-delete" else false);
      try discriminate.
    + intros H; inversion H; subst a. discriminate.
    + intros H; inversion H; subst a. intros _. right. split; reflexivity.
Qed.

Lemma split_eq_None (arg name : string) :
  Argparse.split_eq arg = (name, None) -> name = arg.
Proof.
  revert name. induction arg as [| c r IH]; cbn [Argparse.split_eq];
    intros name H.
  - now inversion H.
  - destruct (Ascii.eqb c "="%char); [discriminate |].
    destruct (Argparse.split_eq r) as [n v]. inversion H; subst.
    f_equal. now apply IH.
Qed.

Lemma getattr_setattr (ns : Argparse.Namespace) (d n : string) (v : bool) :
  Argparse.getattr (Argparse.setattr ns d v) n
  = if String.eqb d n then Ok v else Argparse.getattr ns n.
Proof.
  induction ns as [| [k x] ns IH]; cbn [Argparse.setattr Argparse.getattr].
  - destruct (String.eqb d n); reflexivity.
  - destruct (String.eqb k d) eqn:Ekd; cbn [Argparse.getattr].
    + apply String.eqb_eq in Ekd. subst k.
      destruct (String.eqb d n); reflexivity.
    + destruct (String.eqb k n) eqn:Ekn; [| exact IH].
      destruct (String.eqb d n) eqn:Edn; [| reflexivity].
      apply String.eqb_eq in Ekn, Edn. subst.
      now rewrite String.eqb_refl in Ekd.
Qed.

Lemma parse_auto_apply (argv : list string) :
  forall ns ns' b,
    Argparse.getattr ns "auto_apply" = Ok b ->
    Argparse.parse parser argv ns = Some ns' ->
    Argparse.getattr ns' "auto_apply"
    = Ok (b || existsb (String.prefix "--a") argv).
Proof.
  induction argv as [| arg rest IH]; cbn [Argparse.parse existsb];
    intros ns ns' b Hb Hp.
  - inversion Hp; subst. now rewrite orb_false_r.
  - destruct (String.eqb arg "--") eqn:E.
    + apply String.eqb_eq in E. subst arg.
      destruct rest; [| discriminate]. inversion Hp; subst.
      cbn. now rewrite orb_false_r.
    + destruct (Argparse.split_eq arg) as [name v] eqn:Hs.
      destruct (Argparse.resolve parser name) as [a |] eqn:Hr;
        [| discriminate].
      destruct v; [discriminate |].
      destruct (Argparse.act a) eqn:Ha; [| discriminate].
      apply split_eq_None in Hs. subst name.
      destruct (resolve_store_true _ _ Hr Ha) as [[Hd Hpre] | [Hd Hpre]];
        rewrite Hpre; rewrite Hd in Hp.
      * assert (Hset : Argparse.getattr
                         (Argparse.setattr ns "auto_apply" true) "auto_apply"
                       = Ok true) by now rewrite getattr_setattr.
        rewrite (IH _ _ true Hset Hp). cbn [orb]. now rewrite orb_true_r.
      * assert (Hset : Argparse.getattr
                         (Argparse.setattr ns "confirm_delete" true)
                         "auto_apply"
                       = Ok b) by now rewrite getattr_setattr.
        rewrite (IH _ _ b Hset Hp). reflexivity.
Qed.

(** On an accepted command line, [args.auto_apply] is [True] exactly when
    some argument starts with [--a], that is, when [--auto-apply] or an
    abbreviation of it was given; without one, titles are only applied
    after a prompt. *)
Theorem auto_apply_only_when_asked (argv : list string)
  (args : Argparse.Namespace) :
  Argparse.parse_args parser argv = Some args ->
  Argparse.getattr args "auto_apply"
  = Ok (existsb (String.prefix "--a") argv).
Proof.
  intros H. unfold Argparse.parse_args in H.
  assert (Hd : Argparse.getattr (Argparse.defaults parser) "auto_apply"
               = Ok false) by reflexivity.
  now rewrite (parse_auto_apply _ _ _ false Hd H).
Qed.

Lemma auto_apply_only_when_asked_witness :
  Argparse.getattr cautious_args "auto_apply" = Ok false /\
  Argparse.getattr eager_args "auto_apply" = Ok true.
Proof.
  split.
  - apply (auto_apply_only_when_asked ["--confirm-delete"; "--c"]).
    reflexivity.
  - apply (auto_apply_only_when_asked ["--c"; "--auto"]). reflexivity.
Defined.

(** ** A whole run, whatever happens *)


